(** * wombatpipi: acquisition loop, adaptive filters, feature extraction
      and tone oscillator

    A shallow embedding of [functions.py], [sound.py], [wav_player.py] and
    the curve handling of [serial_reader.py].

    Numbers.  The Python code computes on binary64 floats.  The modules
    [functions], [sound] and [serial_reader] below write every float as an
    exact rational ([Q]) and the oscillator phase as a real number ([R]):
    they carry the statements about control flow, state and the expressions
    the code writes down.  Where a result turns on rounding, on NaN or on an
    infinity, the same functions are given again on IEEE binary64 values
    (the primitive floats), in the modules [Py64], [functions64] and
    [sound64]: [force_two_digit], [update_peak_tracker],
    [AdaptiveMovingAverage.update] and the phase update of the stream
    callback. *)

From Stdlib Require Import ZArith QArith Qround Qminmax Qreals Reals.
From Stdlib Require Import List String Ascii DecimalString Bool Lia Lqa Lra.
From Stdlib Require Import Qabs Qpower DecimalPos DecimalFacts.
From Stdlib Require Import PrimFloat SpecFloat FloatOps.
Import ListNotations.

(** ** Python runtime pieces used by the sources *)

Module Py.
Local Open Scope string_scope.
Local Open Scope Q_scope.

(** Exceptions the modelled code raises. *)
Inductive exn : Type :=
| ValueError (msg : string)
| TypeError
| KeyError (key : string)
| IndexError.

(** Code that may raise: the exception or the value. *)
Definition bind {A B : Type} (c : exn + A) (k : A -> exn + B) : exn + B :=
  match c with
  | inl e => inl e
  | inr a => k a
  end.

Notation "x <- c ;; k" := (bind c (fun x => k))
  (at level 61, c at next level, right associativity).

(** [str(n)] for a length or a size. *)
Definition str (n : nat) : string := NilZero.string_of_uint (Nat.to_uint n).

(** [a < b] on floats. *)
Definition Qltb (a b : Q) : bool := negb (Qle_bool b a).

(** The builtin [max(a, b)]: the first argument unless the second is
    strictly larger. *)
Definition max (a b : Q) : Q := if Qltb a b then b else a.

(** The builtin [min(a, b)]: the first argument unless the second is
    strictly smaller. *)
Definition min (a b : Q) : Q := if Qltb b a then b else a.

(** The builtin [sum] on a list of numbers: left to right from 0. *)
Definition sum (l : list Q) : Q := fold_left Qplus l 0.

(** [int(x)] on a float: truncation toward zero. *)
Definition int (x : Q) : Z := Z.quot (Qnum x) (Zpos (Qden x)).


(** A slice bound [i] against a sequence of length [n]: a negative bound
    counts from the end, and the result is clamped to [0, n]. *)
Definition slice_bound (n : nat) (i : Z) : nat :=
  let len := Z.of_nat n in
  let j := if (i <? 0)%Z then (i + len)%Z else i in
  Z.to_nat (Z.min len (Z.max 0 j)).

(** [l[start:stop]] with step 1; [None] is an omitted bound. *)
Definition slice {A : Type} (l : list A) (start stop : option Z) : list A :=
  let n := List.length l in
  let lo := match start with Some i => slice_bound n i | None => O end in
  let hi := match stop with Some i => slice_bound n i | None => n end in
  firstn (hi - lo) (skipn lo l).

(** In-place item assignment [l[i] = v] for an index in range. *)
Fixpoint setitem {A : Type} (i : nat) (v : A) (l : list A) : list A :=
  match l, i with
  | [], _ => []
  | _ :: t, O => v :: t
  | h :: t, S j => h :: setitem j v t
  end.

(** The format [f"{n:02d}"]: decimal, zero-padded to width 2 (a sign
    counts toward the width). *)
Definition format_02d (n : Z) : string :=
  let s := NilZero.string_of_int (Z.to_int n) in
  if (String.length s <? 2)%nat then String "0" s else s.

(** numpy's [a - b] on one-dimensional arrays: elementwise on equal
    lengths, a one-element array is broadcast, any other pair of shapes
    raises [ValueError]. *)
Fixpoint zip_minus (a b : list Q) : list Q :=
  match a, b with
  | x :: a', y :: b' => (x - y) :: zip_minus a' b'
  | _, _ => []
  end.

Definition vminus (a b : list Q) : exn + list Q :=
  if (List.length a =? List.length b)%nat then inr (zip_minus a b)
  else
    match a, b with
    | [x], _ => inr (map (fun y => x - y) b)
    | _, [y] => inr (map (fun x => x - y) a)
    | _, _ => inl (ValueError "operands could not be broadcast together")
    end.

(** The builtins [min(l)] and [max(l)] on a list with first element [x]
    and rest [l]: the first smallest (largest) element. *)
Definition min_list (x : Q) (l : list Q) : Q :=
  fold_left (fun m y => if Qltb y m then y else m) l x.

Definition max_list (x : Q) (l : list Q) : Q :=
  fold_left (fun m y => if Qltb m y then y else m) l x.

(** [str(n)] on an int. *)
Definition str_int (n : Z) : string := NilZero.string_of_int (Z.to_int n).

(** [s.zfill(2)]: zeros are put on the left up to width 2, after a leading
    sign if there is one. *)
Definition zfill2 (s : string) : string :=
  match s with
  | EmptyString => "00"
  | String c EmptyString =>
      if (Ascii.eqb c "+" || Ascii.eqb c "-")%bool then String c "0"
      else String "0" s
  | _ => s
  end.

(** [s.isdigit()] on a string of ASCII characters: not empty and nothing
    but the characters 0..9. *)
Definition is_ascii_digit (c : ascii) : bool :=
  ((48 <=? nat_of_ascii c)%nat && (nat_of_ascii c <=? 57)%nat)%bool.

Fixpoint all_digits (s : string) : bool :=
  match s with
  | EmptyString => true
  | String c r => (is_ascii_digit c && all_digits r)%bool
  end.

Definition isdigit (s : string) : bool :=
  match s with
  | EmptyString => false
  | _ => all_digits s
  end.

End Py.

(** ** functions.py *)

Module functions.
Import Py.
Local Open Scope string_scope.
Local Open Scope Q_scope.

(** *** class AdaptiveMovingAverage *)

Record AdaptiveMovingAverage : Type := mkAMA {
  size : nat;
  alpha_slow : Q;
  alpha_fast : Q;
  average : list Q;
  initialized : bool
}.

(** [__init__(size, alpha_slow, alpha_fast)] *)
Definition AdaptiveMovingAverage_init (sz : nat) (a_slow a_fast : Q)
  : AdaptiveMovingAverage :=
  {| size := sz; alpha_slow := a_slow; alpha_fast := a_fast;
     average := repeat 0 sz; initialized := false |}.

(** One element of the smoothing loop: the learning rate chosen for input
    [x] against the running average [a]. *)
Definition pick_alpha (a_slow a_fast x a : Q) : Q :=
  if Qltb x a then a_fast else a_slow.

(** The right-hand side [alpha * new_array[i] + (1 - alpha) * self.average[i]]
    with the rate picked for the pair. *)
Definition smooth (a_slow a_fast x a : Q) : Q :=
  let alpha := pick_alpha a_slow a_fast x a in
  alpha * x + (1 - alpha) * a.

(** The body of [for i in range(self.size)], run over the indices [idx];
    an index outside either array raises [IndexError] and leaves the
    elements updated so far in place. *)
Fixpoint update_loop (a_slow a_fast : Q) (new_array : list Q)
    (idx : list nat) (avg : list Q) : list Q * option exn :=
  match idx with
  | [] => (avg, None)
  | i :: rest =>
      match nth_error new_array i, nth_error avg i with
      | Some x, Some a =>
          update_loop a_slow a_fast new_array rest
            (setitem i (smooth a_slow a_fast x a) avg)
      | _, _ => (avg, Some IndexError)
      end
  end.

(** [update(new_values)]: the object after the call, and either the
    exception raised or the returned copy of the average. *)
Definition update (self : AdaptiveMovingAverage) (new_values : list Q)
  : AdaptiveMovingAverage * (exn + list Q) :=
  if negb (List.length new_values =? size self)%nat then
    (self, inl (ValueError ("Expected " ++ str (size self) ++ " values, got "
                              ++ str (List.length new_values))))
  else
    let new_array := new_values in
    if negb (initialized self) then
      (mkAMA (size self) (alpha_slow self) (alpha_fast self) new_array true,
       inr new_array)
    else
      let '(avg, err) :=
        update_loop (alpha_slow self) (alpha_fast self) new_array
          (seq 0 (size self)) (average self) in
      let self' :=
        mkAMA (size self) (alpha_slow self) (alpha_fast self) avg
          (initialized self) in
      match err with
      | Some e => (self', inl e)
      | None => (self', inr avg)
      end.

Definition get_average (self : AdaptiveMovingAverage) : list Q :=
  average self.

Definition reset (self : AdaptiveMovingAverage) : AdaptiveMovingAverage :=
  mkAMA (size self) (alpha_slow self) (alpha_fast self)
    (map (fun _ => 0) (average self)) false.

Definition set_alphas (self : AdaptiveMovingAverage)
    (a_slow a_fast : option Q) : AdaptiveMovingAverage :=
  mkAMA (size self)
    (match a_slow with Some a => a | None => alpha_slow self end)
    (match a_fast with Some a => a | None => alpha_fast self end)
    (average self) (initialized self).

(** *** The module-level dict [current_features]

    The dict is created with eight keys and the code only ever assigns to
    those, so it is a record; [getitem] is the lookup by a key given at run
    time. *)

Record features : Type := mkFeatures {
  total_sum : Q;
  first_half_sum : Q;
  second_half_sum : Q;
  diff : Q;
  cumulative_total : Q;
  peak : Q;
  timestamp : Q;
  ratio : Q
}.

Definition current_features_init : features :=
  mkFeatures 0 0 0 0 0 0 0 0.

Definition getitem (d : features) (key : string) : exn + Q :=
  if String.eqb key "total_sum" then inr (total_sum d)
  else if String.eqb key "first_half_sum" then inr (first_half_sum d)
  else if String.eqb key "second_half_sum" then inr (second_half_sum d)
  else if String.eqb key "diff" then inr (diff d)
  else if String.eqb key "cumulative_total" then inr (cumulative_total d)
  else if String.eqb key "peak" then inr (peak d)
  else if String.eqb key "timestamp" then inr (timestamp d)
  else if String.eqb key "ratio" then inr (ratio d)
  else inl (KeyError key).

(** [current_features.update({'total_sum': .., 'first_half_sum': ..,
    'second_half_sum': .., 'diff': ..})] *)
Definition update_sums (d : features) (ts fh sh df : Q) : features :=
  mkFeatures ts fh sh df (cumulative_total d) (peak d) (timestamp d) (ratio d).

Definition set_cumulative_total (d : features) (v : Q) : features :=
  mkFeatures (total_sum d) (first_half_sum d) (second_half_sum d) (diff d)
    v (peak d) (timestamp d) (ratio d).

Definition set_peak (d : features) (v : Q) : features :=
  mkFeatures (total_sum d) (first_half_sum d) (second_half_sum d) (diff d)
    (cumulative_total d) v (timestamp d) (ratio d).

Definition set_ratio (d : features) (v : Q) : features :=
  mkFeatures (total_sum d) (first_half_sum d) (second_half_sum d) (diff d)
    (cumulative_total d) (peak d) (timestamp d) v.

(** What a call hands back to its caller. *)
Inductive pyobj : Type :=
| PyNone
| PyFalse
| PyPlay (num : string).

(** [obj[key]] on a returned object: none of the three supports it. *)
Definition subscript (obj : pyobj) (key : string) : exn + Q :=
  match obj with
  | PyNone | PyFalse | PyPlay _ => inl TypeError
  end.

(** *** extract_signal_features *)

(** The interior slice: [samples[start_index:-end_trim]] when
    [end_trim > 0], else [samples[start_index:]]. *)
Definition subset_of (samples : list Q) (start_index end_trim : Z) : list Q :=
  if (0 <? end_trim)%Z then
    slice samples (Some start_index) (Some (- end_trim)%Z)
  else slice samples (Some start_index) None.

(** [subset[:10]] and [subset[-6:]] *)
Definition first_half (subset : list Q) : list Q :=
  slice subset None (Some 10%Z).
Definition second_half (subset : list Q) : list Q :=
  slice subset (Some (-6)%Z) None.

(** The function writes the four sums into [current_features] and returns
    nothing on either path. *)
Definition extract_signal_features (samples : list Q)
    (start_index end_trim : Z) (current_features : features)
  : features * pyobj :=
  let subset := subset_of samples start_index end_trim in
  if (List.length subset =? 0)%nat then
    (update_sums current_features 0 0 0 0, PyNone)
  else
    let total := sum subset in
    let fhs := sum (first_half subset) / 10 in
    let shs := sum (second_half subset) / 6 in
    let diff1 := fhs - shs in
    (update_sums current_features total fhs shs diff1, PyNone).

(** Default arguments of [extract_signal_features]. *)
Definition default_start_index : Z := 4.
Definition default_end_trim : Z := 1.

(** *** force_two_digit

    The argument is always a float here, so [float(value)] is the identity
    and neither [ValueError] nor [TypeError] is raised inside the [try] on
    a finite value.  NaN and the infinities are in
    [functions64.force_two_digit]. *)
Definition force_two_digit (value : Q) : string :=
  let num := int value in
  let num := Z.max 0 (Z.min 99 num) in
  format_02d num.

(** *** update_peak_tracker

    The dict after the call, and either the exception raised or the
    returned object: [('play', num)] or [False]. *)
Definition update_peak_tracker (key : string) (current_features : features)
  : features * (exn + pyobj) :=
  match getitem current_features key with
  | inl e => (current_features, inl e)
  | inr current =>
      let accumulate (cf : features) : features * (exn + pyobj) :=
        let cf := set_cumulative_total cf (cumulative_total cf + current) in
        let cf :=
          if Qltb (peak cf) current then
            let cf := set_peak cf current in
            if negb (Qeq_bool (first_half_sum cf) 0) then
              set_ratio cf (second_half_sum cf / first_half_sum cf)
            else set_ratio cf 0
          else cf in
        (cf, inr PyFalse) in
      if Qltb current 0 then
        let play_conductivity := Qltb 10 (peak current_features) in
        let getratio :=
          if play_conductivity then ratio current_features * 100 else 0 in
        let cf := set_cumulative_total current_features 0 in
        let cf := set_peak cf (max current 0) in
        if play_conductivity then
          (cf, inr (PyPlay (force_two_digit getratio)))
        else accumulate cf
      else accumulate current_features
  end.

(** *** normalize_samples

    [last = None] stands for the length of the list.  The result is empty
    for an empty slice, all 0.5 for a slice without spread, and otherwise
    each value's position between the minimum and the maximum. *)
Definition normalize_samples (samples : list Q) (first : Z) (last : option Z)
  : list Q :=
  let last :=
    match last with
    | None => Z.of_nat (List.length samples)
    | Some l => l
    end in
  let subset := slice samples (Some first) (Some last) in
  match subset with
  | [] => []
  | x :: rest =>
      let min_val := min_list x rest in
      let max_val := max_list x rest in
      let val_range := max_val - min_val in
      if Qltb 0 val_range then
        map (fun s => (s - min_val) / val_range) subset
      else repeat (1 # 2) (List.length subset)
  end.

End functions.

(** ** Lines written to standard output by [sound.py] and
    [serial_reader.py] *)

Inductive printed : Type :=
| StrengthLine (strength freq vol : Q)
| ToneStarted
| ToneStopped
| SoundUpdateError (e : Py.exn)
| WarningExpected (expected got : nat)
| ParseErrorLine (e : Py.exn)
| UnexpectedError (e : Py.exn).

(** ** sound.py *)

Module sound.
Import Py.
Local Open Scope Q_scope.

Definition sample_rate : Z := 48000.

(** The module globals.  [stream] tells whether an output stream object is
    held. *)
Record globals : Type := mkGlobals {
  current_frequency : Q;
  current_volume : Q;
  is_playing : bool;
  stream : bool;
  phase : R
}.

Definition globals_init : globals :=
  mkGlobals 440 (3 # 10) false false 0%R.

Definition set_frequency (freq : Q) (g : globals) : globals :=
  mkGlobals freq (current_volume g) (is_playing g) (stream g) (phase g).

Definition set_volume (vol : Q) (g : globals) : globals :=
  mkGlobals (current_frequency g) (max 0 (min 1 vol)) (is_playing g)
    (stream g) (phase g).

Definition start_tone (g : globals) : globals * list printed :=
  if is_playing g then (g, [])
  else
    (mkGlobals (current_frequency g) (current_volume g) true true 0%R,
     [ToneStarted]).

Definition stop_tone (g : globals) : globals * list printed :=
  if negb (is_playing g) then (g, [])
  else
    (mkGlobals (current_frequency g) (current_volume g) false false 0%R,
     [ToneStopped]).

(** Constants local to [soundscape]. *)
Definition max_expected_strength : Q := 100.
Definition min_volume : Q := 5 # 100.
Definition max_volume : Q := 7 # 10.
Definition min_freq : Q := 400.
Definition max_freq : Q := 1000.

Definition soundscape (signal_strength signal_shape_ratio : Q) (g : globals)
  : globals * list printed :=
  let strength_ratio := min 1 (signal_strength / max_expected_strength) in
  let vol := min_volume + (max_volume - min_volume) * strength_ratio in
  let strength_ratio := min 1 (signal_strength / max_expected_strength) in
  let freq := min_freq + (max_freq - min_freq) * strength_ratio in
  let g := mkGlobals freq vol (is_playing g) (stream g) (phase g) in
  let out := [StrengthLine signal_strength freq vol] in
  if negb (is_playing g) then
    let '(g, out') := start_tone g in (g, out ++ out')
  else (g, out).

(** [x % m] on floats, for a positive [m]: the remainder with the sign of
    the divisor. *)
Definition fmod (x m : R) : R := (x - IZR (Int_part (x / m)) * m)%R.

(** The stream callback nested in [start_tone]: the block written to
    [outdata[:, 0]] and the globals with the advanced phase.  The driver's
    status flags are only printed and are left out. *)
Definition callback (frames : nat) (g : globals) : list R * globals :=
  let f := Q2R (current_frequency g) in
  let v := Q2R (current_volume g) in
  let t := map (fun i => (INR i / IZR sample_rate)%R) (seq 0 frames) in
  let sine := map (fun ti => (v * sin (2 * PI * f * ti + phase g))%R) t in
  let phase' :=
    fmod (phase g + 2 * PI * f * INR frames / IZR sample_rate)%R (2 * PI)%R in
  (sine,
   mkGlobals (current_frequency g) (current_volume g) (is_playing g)
     (stream g) phase').

(** The globals after the driver has asked for the blocks [blocks] in
    turn. *)
Definition run_callbacks (blocks : list nat) (g : globals) : globals :=
  fold_left (fun g frames => snd (callback frames g)) blocks g.

End sound.

(** ** collections.deque *)

Module deque.

Record t (A : Type) : Type := mk { items : list A; maxlen : option nat }.
Arguments mk {A}.
Arguments items {A}.
Arguments maxlen {A}.

Definition empty {A : Type} (m : option nat) : t A := mk [] m.

(** [append]: the item goes to the right end, and a deque grown past its
    [maxlen] drops its leftmost item. *)
Definition append {A : Type} (d : t A) (x : A) : t A :=
  let l := items d ++ [x] in
  match maxlen d with
  | Some m =>
      if (m <? List.length l)%nat then mk (tl l) (Some m) else mk l (Some m)
  | None => mk l None
  end.

Definition clear {A : Type} (d : t A) : t A := mk [] (maxlen d).

End deque.

(** ** serial_reader.py *)

Module serial_reader.
Import Py.
Local Open Scope string_scope.
Local Open Scope Q_scope.

Definition CURVE_SAMPLE_SIZE : nat := 25.
Definition TIME_BUFFER_SIZE : nat := 100.
Definition sample_interval_us : Z := 3.

(** The dict stored for each discharge curve. *)
Record curve_data : Type := mkCurve {
  curve_timestamp : Q;
  curve_values : list Q;
  curve_times_us : list Z
}.

(** The globals of the module together with those of [functions] and
    [sound] that the reading thread touches, and what has been printed. *)
Record world : Type := mkWorld {
  long_average_curve : functions.AdaptiveMovingAverage;
  fast_average_curve : functions.AdaptiveMovingAverage;
  current_features : functions.features;
  audio : sound.globals;
  enable_sound : bool;
  data_buffer : deque.t curve_data;
  latest_curve : option curve_data;
  stdout : list printed
}.

Definition world_init : world :=
  mkWorld
    (functions.AdaptiveMovingAverage_init CURVE_SAMPLE_SIZE (3 # 100) (1 # 10))
    (functions.AdaptiveMovingAverage_init CURVE_SAMPLE_SIZE (3 # 10) (3 # 10))
    functions.current_features_init
    sound.globals_init
    true
    (deque.empty (Some TIME_BUFFER_SIZE))
    None
    [].

Definition print (ls : list printed) (w : world) : world :=
  mkWorld (long_average_curve w) (fast_average_curve w) (current_features w)
    (audio w) (enable_sound w) (data_buffer w) (latest_curve w)
    (stdout w ++ ls).

Definition set_long (a : functions.AdaptiveMovingAverage) (w : world) : world :=
  mkWorld a (fast_average_curve w) (current_features w)
    (audio w) (enable_sound w) (data_buffer w) (latest_curve w) (stdout w).

Definition set_fast (a : functions.AdaptiveMovingAverage) (w : world) : world :=
  mkWorld (long_average_curve w) a (current_features w)
    (audio w) (enable_sound w) (data_buffer w) (latest_curve w) (stdout w).

Definition set_features (cf : functions.features) (w : world) : world :=
  mkWorld (long_average_curve w) (fast_average_curve w) cf
    (audio w) (enable_sound w) (data_buffer w) (latest_curve w) (stdout w).

Definition set_audio (g : sound.globals) (w : world) : world :=
  mkWorld (long_average_curve w) (fast_average_curve w) (current_features w)
    g (enable_sound w) (data_buffer w) (latest_curve w) (stdout w).

Definition store_curve (c : curve_data) (w : world) : world :=
  mkWorld (long_average_curve w) (fast_average_curve w) (current_features w)
    (audio w) (enable_sound w) (deque.append (data_buffer w) c) (Some c)
    (stdout w).

(** The block under [if enable_sound:], with its own [try]: whatever is
    raised inside is printed as a sound update error and the loop goes on.
    The features written by [extract_signal_features] stay written. *)
Definition sound_update (w : world) : world :=
  let fast_signal := functions.get_average (fast_average_curve w) in
  let long_baseline := functions.get_average (long_average_curve w) in
  match vminus fast_signal long_baseline with
  | inl e => print [SoundUpdateError e] w
  | inr normalized =>
      let '(cf, features) :=
        functions.extract_signal_features normalized
          functions.default_start_index functions.default_end_trim
          (current_features w) in
      let w := set_features cf w in
      let attempt : exn + (sound.globals * list printed) :=
        shs <- functions.subscript features "second_half_sum" ;;
        ratio <- (if Qltb 0 shs then
                    a <- functions.subscript features "first_half_sum" ;;
                    b <- functions.subscript features "second_half_sum" ;;
                    inr (a / b)
                  else inr 1) ;;
        strength <- functions.subscript features "first_half_sum" ;;
        inr (sound.soundscape strength ratio (audio w)) in
      match attempt with
      | inl e => print [SoundUpdateError e] w
      | inr (g, out) => print out (set_audio g w)
      end
  end.

(** What the two enclosing handlers of [_read_loop] do with an exception
    that reaches them: a [ValueError] is reported as a parse error, anything
    else as an unexpected error. *)
Definition handle (e : exn) (w : world) : world :=
  match e with
  | ValueError _ => print [ParseErrorLine e] w
  | _ => print [UnexpectedError e] w
  end.

(** [_read_loop], one non-empty line: [parsed] is the outcome of the list
    comprehension over the comma-separated tokens (the floats, or the
    [ValueError] of a token that is no number) and [now] is [time.time()]. *)
Definition read_line (now : Q) (parsed : exn + list Q) (w : world) : world :=
  match parsed with
  | inl e => handle e w
  | inr values =>
      if (List.length values =? CURVE_SAMPLE_SIZE)%nat then
        let compensated := values in
        match functions.update (long_average_curve w) compensated with
        | (a, inl e) => handle e (set_long a w)
        | (a, inr _) =>
            let w := set_long a w in
            match functions.update (fast_average_curve w) compensated with
            | (b, inl e) => handle e (set_fast b w)
            | (b, inr _) =>
                let w := set_fast b w in
                let w := if enable_sound w then sound_update w else w in
                let c :=
                  mkCurve now compensated
                    (map (fun i => (Z.of_nat i * sample_interval_us)%Z)
                       (seq 0 CURVE_SAMPLE_SIZE)) in
                store_curve c w
            end
        end
      else
        print [WarningExpected CURVE_SAMPLE_SIZE (List.length values)] w
  end.

(** The loop over the lines that arrive, each with its arrival time. *)
Definition _read_loop (lines : list (Q * (exn + list Q))) (w : world) : world :=
  fold_left (fun w l => read_line (fst l) (snd l) w) lines w.

Definition get_latest (w : world) : option curve_data := latest_curve w.

Definition get_buffer (w : world) : list curve_data :=
  deque.items (data_buffer w).

Definition clear_buffer (w : world) : world :=
  mkWorld (functions.reset (long_average_curve w))
    (functions.reset (fast_average_curve w)) (current_features w)
    (audio w) (enable_sound w) (deque.clear (data_buffer w)) None (stdout w).

(** The module's [get_average()] (named apart from the method of the
    filter): the dict with keys ['values'] (the baseline), ['signal'] and
    ['times_us']. *)
Record averages : Type := mkAverages {
  avg_values : list Q;
  avg_signal : list Q;
  avg_times_us : list Z
}.

Definition get_averages (w : world) : averages :=
  mkAverages (functions.get_average (long_average_curve w))
    (functions.get_average (fast_average_curve w))
    (map (fun i => (Z.of_nat i * sample_interval_us)%Z)
       (seq 0 CURVE_SAMPLE_SIZE)).

End serial_reader.

(** ** wav_player.py

    The player's queue is read by a worker thread; here [queue] is what has
    been put on it, in order, and the taking is left out.  [None] is the
    shutdown signal. *)

Module wav_player.
Import Py.
Local Open Scope string_scope.

(** What callers pass as [number]: an int or a string (of ASCII
    characters). *)
Inductive number : Type :=
| Int (n : Z)
| Str (s : string).

Definition str (x : number) : string :=
  match x with
  | Int n => str_int n
  | Str s => s
  end.

Record WavPlayer : Type := mkPlayer {
  wav_path : string;
  queue : list (option string);
  running : bool;
  worker_thread : bool
}.

(** [WavPlayer(wav_path)] and the methods [start], [stop] (the mixer
    shutdown left out) and [say_number]. *)
Definition WavPlayer_init (path : string) : WavPlayer :=
  mkPlayer path [] false false.

Definition WavPlayer_start (self : WavPlayer) : WavPlayer :=
  if negb (running self) then mkPlayer (wav_path self) (queue self) true true
  else self.

Definition WavPlayer_stop (self : WavPlayer) : WavPlayer :=
  if running self then
    mkPlayer (wav_path self) (queue self ++ [None]) false (worker_thread self)
  else self.

Definition say_number (x : number) (self : WavPlayer) : WavPlayer * bool :=
  if negb (running self) then (self, false)
  else
    let num_str := zfill2 (str x) in
    if (negb (String.length num_str =? 2)%nat || negb (isdigit num_str))%bool
    then (self, false)
    else
      (mkPlayer (wav_path self) (queue self ++ [Some num_str]) (running self)
         (worker_thread self),
       true).

(** The module-level [init], [say] and [stop] on the global [_player].
    [stop] also gives the player object it has stopped and dropped. *)
Definition init (path : string) (player : option WavPlayer)
  : option WavPlayer :=
  match player with
  | None => Some (WavPlayer_start (WavPlayer_init path))
  | Some p => Some p
  end.

Definition say (x : number) (player : option WavPlayer)
  : option WavPlayer * bool :=
  match init "wavs" player with
  | Some p => let '(p', r) := say_number x p in (Some p', r)
  | None => (None, false)
  end.

Definition stop (player : option WavPlayer)
  : option WavPlayer * option WavPlayer :=
  match player with
  | Some p => (None, Some (WavPlayer_stop p))
  | None => (None, None)
  end.

End wav_player.

(** ** Python floats as IEEE binary64

    A Python float is a binary64 value and [+], [-], [*], [/] and the
    comparisons on it are the IEEE operations, which is what the primitive
    floats compute.  Decimal literals stand for the nearest binary64 value,
    as they do in Python. *)

#[local] Set Warnings "-inexact-float".

Module Py64.
Local Open Scope string_scope.
Local Open Scope float_scope.

(** Exceptions the modelled code raises. *)
Inductive exn : Type :=
| ValueError (msg : string)
| TypeError
| KeyError (key : string)
| IndexError
| OverflowError (msg : string).

(** [math.isnan(x)] and [math.isinf(x)] *)
Definition isnan (x : float) : bool :=
  match Prim2SF x with
  | S754_nan => true
  | _ => false
  end.

Definition isinf (x : float) : bool :=
  match Prim2SF x with
  | S754_infinity _ => true
  | _ => false
  end.

(** [int(x)] on a float: the value truncated toward zero; NaN raises
    [ValueError], an infinity raises [OverflowError]. *)
Definition int (x : float) : exn + Z :=
  match Prim2SF x with
  | S754_zero _ => inr 0%Z
  | S754_finite s m e =>
      let a := Z.shiftl (Zpos m) e in
      inr (if s then (- a)%Z else a)
  | S754_nan => inl (ValueError "cannot convert float NaN to integer")
  | S754_infinity _ =>
      inl (OverflowError "cannot convert float infinity to integer")
  end.

(** The rational number a finite float stands for: its mantissa times the
    power of two of its exponent. *)
Definition value (x : float) : option Q :=
  match Prim2SF x with
  | S754_zero _ => Some 0%Q
  | S754_finite s m e =>
      let n := (Zpos m * 2 ^ Z.max 0 e)%Z in
      Some (Qmake (if s then (- n)%Z else n) (Z.to_pos (2 ^ Z.max 0 (- e))))
  | S754_nan | S754_infinity _ => None
  end.

(** The builtin [max(a, b)]: the first argument unless the second is
    strictly larger. *)
Definition max (a b : float) : float := if a <? b then b else a.

(** The builtin [sum] on a list of floats: left to right from 0, every
    addition rounded. *)
Definition sum (l : list float) : float := fold_left add l 0.

(** The float of a block size or a count below 2^53, where the
    conversion is exact. *)
Definition float_of_nat (n : nat) : float :=
  match n with
  | O => 0
  | S _ => SF2Prim (S754_finite false (Pos.of_nat n) 0)
  end.

(** C's [fmod(x, y)]: the exact remainder of the division with the quotient
    truncated toward zero; it has the sign of [x]. *)
Definition fmod (x y : float) : float :=
  match Prim2SF x, Prim2SF y with
  | S754_nan, _ | _, S754_nan => nan
  | S754_infinity _, _ => nan
  | _, S754_zero _ => nan
  | S754_zero _, _ => x
  | S754_finite _ _ _, S754_infinity _ => x
  | S754_finite sx mx ex, S754_finite _ my ey =>
      let e := Z.min ex ey in
      let X := (Zpos mx * 2 ^ (ex - e))%Z in
      let Y := (Zpos my * 2 ^ (ey - e))%Z in
      match (X mod Y)%Z with
      | Zpos r => SF2Prim (S754_finite sx r e)
      | _ => if sx then neg_zero else zero
      end
  end.

(** [vx % wx] on floats for a divisor that is not zero: [fmod], moved by
    one divisor when its sign differs from the divisor's; a zero remainder
    takes the divisor's sign. *)
Definition float_rem (vx wx : float) : float :=
  let m := fmod vx wx in
  if m =? 0 then (if wx <? 0 then neg_zero else zero)
  else if xorb (wx <? 0) (m <? 0) then m + wx
  else m.

End Py64.

(** ** functions.py on binary64

    The arrays are float64 arrays, as [np.zeros] makes them and as the
    acquisition loop passes them; the ints of the initial
    [current_features] are the floats of the same value. *)

Module functions64.
Import Py64.
Local Open Scope string_scope.
Local Open Scope float_scope.

(** *** class AdaptiveMovingAverage *)

Record AdaptiveMovingAverage : Type := mkAMA {
  size : nat;
  alpha_slow : float;
  alpha_fast : float;
  average : list float;
  initialized : bool
}.

Definition AdaptiveMovingAverage_init (sz : nat) (a_slow a_fast : float)
  : AdaptiveMovingAverage :=
  {| size := sz; alpha_slow := a_slow; alpha_fast := a_fast;
     average := repeat 0 sz; initialized := false |}.

Definition pick_alpha (a_slow a_fast x a : float) : float :=
  if x <? a then a_fast else a_slow.

(** [alpha * new_array[i] + (1 - alpha) * self.average[i]]: two products
    and a sum, each rounded. *)
Definition smooth (a_slow a_fast x a : float) : float :=
  let alpha := pick_alpha a_slow a_fast x a in
  alpha * x + (1 - alpha) * a.

Fixpoint update_loop (a_slow a_fast : float) (new_array : list float)
    (idx : list nat) (avg : list float) : list float * option exn :=
  match idx with
  | [] => (avg, None)
  | i :: rest =>
      match nth_error new_array i, nth_error avg i with
      | Some x, Some a =>
          update_loop a_slow a_fast new_array rest
            (Py.setitem i (smooth a_slow a_fast x a) avg)
      | _, _ => (avg, Some IndexError)
      end
  end.

Definition update (self : AdaptiveMovingAverage) (new_values : list float)
  : AdaptiveMovingAverage * (exn + list float) :=
  if negb (List.length new_values =? size self)%nat then
    (self, inl (ValueError ("Expected " ++ Py.str (size self)
                              ++ " values, got "
                              ++ Py.str (List.length new_values))))
  else
    let new_array := new_values in
    if negb (initialized self) then
      (mkAMA (size self) (alpha_slow self) (alpha_fast self) new_array true,
       inr new_array)
    else
      let '(avg, err) :=
        update_loop (alpha_slow self) (alpha_fast self) new_array
          (seq 0 (size self)) (average self) in
      let self' :=
        mkAMA (size self) (alpha_slow self) (alpha_fast self) avg
          (initialized self) in
      match err with
      | Some e => (self', inl e)
      | None => (self', inr avg)
      end.

(** *** The module-level dict [current_features] *)

Record features : Type := mkFeatures {
  total_sum : float;
  first_half_sum : float;
  second_half_sum : float;
  diff : float;
  cumulative_total : float;
  peak : float;
  timestamp : float;
  ratio : float
}.

Definition current_features_init : features :=
  mkFeatures 0 0 0 0 0 0 0 0.

Definition getitem (d : features) (key : string) : exn + float :=
  if String.eqb key "total_sum" then inr (total_sum d)
  else if String.eqb key "first_half_sum" then inr (first_half_sum d)
  else if String.eqb key "second_half_sum" then inr (second_half_sum d)
  else if String.eqb key "diff" then inr (diff d)
  else if String.eqb key "cumulative_total" then inr (cumulative_total d)
  else if String.eqb key "peak" then inr (peak d)
  else if String.eqb key "timestamp" then inr (timestamp d)
  else if String.eqb key "ratio" then inr (ratio d)
  else inl (KeyError key).

(** [current_features.update({'total_sum': .., 'first_half_sum': ..,
    'second_half_sum': .., 'diff': ..})], the write
    [extract_signal_features] ends with. *)
Definition update_sums (d : features) (ts fh sh df : float) : features :=
  mkFeatures ts fh sh df (cumulative_total d) (peak d) (timestamp d) (ratio d).

Definition set_cumulative_total (d : features) (v : float) : features :=
  mkFeatures (total_sum d) (first_half_sum d) (second_half_sum d) (diff d)
    v (peak d) (timestamp d) (ratio d).

Definition set_peak (d : features) (v : float) : features :=
  mkFeatures (total_sum d) (first_half_sum d) (second_half_sum d) (diff d)
    (cumulative_total d) v (timestamp d) (ratio d).

Definition set_ratio (d : features) (v : float) : features :=
  mkFeatures (total_sum d) (first_half_sum d) (second_half_sum d) (diff d)
    (cumulative_total d) (peak d) (timestamp d) v.

(** *** extract_signal_features *)

Definition subset_of (samples : list float) (start_index end_trim : Z)
  : list float :=
  if (0 <? end_trim)%Z then
    Py.slice samples (Some start_index) (Some (- end_trim)%Z)
  else Py.slice samples (Some start_index) None.

Definition extract_signal_features (samples : list float)
    (start_index end_trim : Z) (current_features : features)
  : features * functions.pyobj :=
  let subset := subset_of samples start_index end_trim in
  if (List.length subset =? 0)%nat then
    (update_sums current_features 0 0 0 0, functions.PyNone)
  else
    let total := sum subset in
    let fhs := sum (Py.slice subset None (Some 10%Z)) / 10 in
    let shs := sum (Py.slice subset (Some (-6)%Z) None) / 6 in
    let diff1 := fhs - shs in
    (update_sums current_features total fhs shs diff1, functions.PyNone).

(** *** force_two_digit

    [float(value)] is the identity on a float.  [int] raises [ValueError]
    on NaN, which the [except] clause turns into "00", and [OverflowError]
    on an infinity, which the clause does not name and which leaves the
    function. *)
Definition force_two_digit (value : float) : exn + string :=
  match int value with
  | inr num =>
      let num := Z.max 0 (Z.min 99 num) in
      inr (Py.format_02d num)
  | inl (ValueError _) | inl TypeError => inr "00"
  | inl e => inl e
  end.

(** *** update_peak_tracker

    The dict after the call, and either the exception raised or the
    returned object: [('play', num)] or [False]. *)
Definition update_peak_tracker (key : string) (current_features : features)
  : features * (exn + functions.pyobj) :=
  match getitem current_features key with
  | inl e => (current_features, inl e)
  | inr current =>
      let accumulate (cf : features) : features * (exn + functions.pyobj) :=
        let cf := set_cumulative_total cf (cumulative_total cf + current) in
        let cf :=
          if peak cf <? current then
            let cf := set_peak cf current in
            if negb (first_half_sum cf =? 0) then
              set_ratio cf (second_half_sum cf / first_half_sum cf)
            else set_ratio cf 0
          else cf in
        (cf, inr functions.PyFalse) in
      if current <? 0 then
        let play_conductivity := 10 <? peak current_features in
        let getratio :=
          if play_conductivity then ratio current_features * 100 else 0 in
        let cf := set_cumulative_total current_features 0 in
        let cf := set_peak cf (max current 0) in
        if play_conductivity then
          match force_two_digit getratio with
          | inl e => (cf, inl e)
          | inr num => (cf, inr (functions.PyPlay num))
          end
        else accumulate cf
      else accumulate current_features
  end.

End functions64.

(** ** sound.py on binary64: the phase of the stream callback

    The samples of a block go through numpy's [sin] and are in
    [sound.callback]; here is what the callback leaves in the globals. *)

Module sound64.
Import Py64.
Local Open Scope float_scope.

(** [np.pi] *)
Definition pi : float := 0x1.921fb54442d18p+1.

Definition sample_rate : float := 48000.

Record globals : Type := mkGlobals {
  current_frequency : float;
  current_volume : float;
  is_playing : bool;
  stream : bool;
  phase : float
}.

Definition globals_init : globals :=
  mkGlobals 440 0.3 false false 0.

Definition set_frequency (freq : float) (g : globals) : globals :=
  mkGlobals freq (current_volume g) (is_playing g) (stream g) (phase g).

(** [start_tone], without the line it prints. *)
Definition start_tone (g : globals) : globals :=
  if is_playing g then g
  else mkGlobals (current_frequency g) (current_volume g) true true 0.

(** The phase update
    [(phase + 2 * np.pi * current_frequency * frames / sample_rate)
     % (2 * np.pi)], evaluated from left to right. *)
Definition next_phase (frequency : float) (frames : nat) (p : float) : float :=
  float_rem (p + 2 * pi * frequency * float_of_nat frames / sample_rate)
    (2 * pi).

Definition callback (frames : nat) (g : globals) : globals :=
  mkGlobals (current_frequency g) (current_volume g) (is_playing g)
    (stream g) (next_phase (current_frequency g) frames (phase g)).

(** The globals after the driver has asked for the blocks [blocks] in
    turn. *)
Definition run_callbacks (blocks : list nat) (g : globals) : globals :=
  fold_left (fun g frames => callback frames g) blocks g.

End sound64.

(** ** The specification's wording, for comparison with the code *)

Module spec.
Import Py.
Local Open Scope Q_scope.

(** A number in 0..99 written as exactly two decimal digits. *)
Definition digit (n : Z) : ascii := ascii_of_nat (48 + Z.to_nat n).
Definition two_digits (n : Z) : string :=
  String (digit (n / 10)) (String (digit (n mod 10)) EmptyString).


(** The mean of a window. *)
Definition mean (l : list Q) : Q :=
  sum l / inject_Z (Z.of_nat (List.length l)).

(** The last [n] elements of a slice. *)
Definition trailing {A : Type} (n : nat) (l : list A) : list A :=
  skipn (List.length l - n) l.

(** [clamp(x, lo, hi)] *)
Definition clamp (x lo hi : Q) : Q := Qmax lo (Qmin hi x).

(** The oscillator mapping as the specification words it: the pair
    (frequency, volume) for a strength. *)
Definition map_signal (strength : Q) : Q * Q :=
  let ratio := clamp (strength / sound.max_expected_strength) 0 1 in
  (sound.min_freq + (sound.max_freq - sound.min_freq) * ratio,
   sound.min_volume + (sound.max_volume - sound.min_volume) * ratio).

End spec.

(** The docstring example of [extract_signal_features]. *)
Definition example_samples : list Q :=
  [10; 20; 30; 40; 50; 60; 70; 80; 90; 100]%Q.

(** Two normalized curves of 25 samples, read with the default slice
    (indices 4..23): the first has leading mean 100 and trailing mean 12.6,
    the second leading mean 0 and trailing mean 1. *)
Definition peak_curve : list Q :=
  repeat 0%Q 4 ++ repeat 100%Q 10 ++ repeat 0%Q 4 ++ repeat (126 # 10)%Q 6
    ++ [0%Q].

Definition quiet_curve : list Q :=
  repeat 0%Q 18 ++ repeat 1%Q 6 ++ [0%Q].

(** The features when the tracker is about to see the second curve: from
    the initial dict, the first curve extracted and tracked (a peak of 87.4
    with ratio 0.126), then the second curve extracted (diff -1). *)
Definition tracker_after_peak : functions.features :=
  let s1 :=
    fst (functions.extract_signal_features peak_curve
           functions.default_start_index functions.default_end_trim
           functions.current_features_init) in
  let s2 := fst (functions.update_peak_tracker "diff" s1) in
  fst (functions.extract_signal_features quiet_curve
         functions.default_start_index functions.default_end_trim s2).

(** A filter whose average has the configured length, as [__init__] builds
    it and [update] and [reset] keep it. *)
Definition filter_ok (n : nat) (a : functions.AdaptiveMovingAverage) : Prop :=
  functions.size a = n /\ List.length (functions.average a) = n.

(** A buffer as [serial_reader] creates it and [append] keeps it. *)
Definition buffer_ok (d : deque.t serial_reader.curve_data) : Prop :=
  deque.maxlen d = Some serial_reader.TIME_BUFFER_SIZE /\
  (List.length (deque.items d) <= serial_reader.TIME_BUFFER_SIZE)%nat.

(** Concrete inputs used below: a fresh and a running three-point filter,
    the features after the docstring example, curves told apart by their
    time stamps, and a first serial line of 25 samples. *)
Definition fresh_filter : functions.AdaptiveMovingAverage :=
  functions.AdaptiveMovingAverage_init 3 (3 # 100) (1 # 10).

Definition warm_filter : functions.AdaptiveMovingAverage :=
  functions.mkAMA 3 (3 # 100) (1 # 10) [10; 20; 30]%Q true.

Definition example_features : functions.features :=
  fst (functions.extract_signal_features example_samples 2 1
         functions.current_features_init).

Definition stamped_curve (i : nat) : serial_reader.curve_data :=
  serial_reader.mkCurve (inject_Z (Z.of_nat i)) [] [].

Definition first_line : list Q :=
  map (fun i => inject_Z (Z.of_nat i)) (seq 100 25).

(** The module-level player is absent or running: what [init], [say] and
    [stop] of [wav_player] keep. *)
Definition player_running (player : option wav_player.WavPlayer) : Prop :=
  match player with
  | None => True
  | Some p => wav_player.running p = true
  end.

(** The sample times of a stored curve: 0, 3, ..., 72 microseconds. *)
Definition curve_times : list Z :=
  map (fun i => (Z.of_nat i * serial_reader.sample_interval_us)%Z)
    (seq 0 serial_reader.CURVE_SAMPLE_SIZE).

(** A stored curve as the loop builds it. *)
Definition curve_ok (c : serial_reader.curve_data) : Prop :=
  List.length (serial_reader.curve_values c) = serial_reader.CURVE_SAMPLE_SIZE
  /\ serial_reader.curve_times_us c = curve_times.

(** The latest curve is the newest one in the buffer, or there is none. *)
Definition latest_is_newest (w : serial_reader.world) : Prop :=
  match serial_reader.get_latest w with
  | None => serial_reader.get_buffer w = []
  | Some c => exists older, serial_reader.get_buffer w = older ++ [c]
  end.

(** The module state at start-up but with sound updates disabled and the
    features of the docstring example in the dict. *)
Definition quiet_world : serial_reader.world :=
  serial_reader.mkWorld
    (serial_reader.long_average_curve serial_reader.world_init)
    (serial_reader.fast_average_curve serial_reader.world_init)
    example_features sound.globals_init false
    (serial_reader.data_buffer serial_reader.world_init) None [].

(** Samples of a magnitude that leaves binary64 room for their spread: at
    most 2^1022 in absolute value, so that [max_val - min_val] is finite. *)
Definition finite_spread (l : list Q) : Prop :=
  Forall (fun s => (Qabs s <= inject_Z (2 ^ 1022))%Q) l.

(** The docstring example of [normalize_samples]. *)
Definition normalize_example : list Q :=
  [100; 200; 500; 1000; 800; 600; 50]%Q.

(** The same two curves and the same run on binary64: the tracker is
    about to see the second curve after a peak of 87.4 with ratio 0.126. *)
Definition peak_curve64 : list float :=
  repeat 0%float 4 ++ repeat 100%float 10 ++ repeat 0%float 4
    ++ repeat 12.6%float 6 ++ [0%float].

Definition quiet_curve64 : list float :=
  repeat 0%float 18 ++ repeat 1%float 6 ++ [0%float].

Definition tracker64_after_peak : functions64.features :=
  let s1 :=
    fst (functions64.extract_signal_features peak_curve64
           functions.default_start_index functions.default_end_trim
           functions64.current_features_init) in
  let s2 := fst (functions64.update_peak_tracker "diff" s1) in
  fst (functions64.extract_signal_features quiet_curve64
         functions.default_start_index functions.default_end_trim s2).

(** Features with a ratio whose hundredfold is beyond binary64: the value
    is below zero after a peak of 20. *)
Definition overflowing_features64 : functions64.features :=
  functions64.mkFeatures 0 0 0 (-1)%float 0 20%float 0 1e307%float.




(** * Properties *)

(** ** Comparisons and item assignment *)

Section PyFacts.
Import Py.
Local Open Scope Q_scope.

Lemma Qltb_lt (a b : Q) : Qltb a b = true <-> a < b.
Proof.
  unfold Qltb. rewrite negb_true_iff.
  split; intro H.
  - apply Qnot_le_lt. intro Hle. apply Qle_bool_iff in Hle. congruence.
  - destruct (Qle_bool b a) eqn:E; trivial.
    apply Qle_bool_iff in E. exfalso. exact (Qlt_not_le _ _ H E).
Qed.

Lemma Qltb_ge (a b : Q) : Qltb a b = false <-> b <= a.
Proof.
  unfold Qltb. rewrite negb_false_iff. apply Qle_bool_iff.
Qed.

Lemma length_setitem {A : Type} (i : nat) (v : A) (l : list A) :
  List.length (setitem i v l) = List.length l.
Proof.
  revert i. induction l as [|h t IH]; intros [|j]; simpl; auto.
Qed.

Lemma nth_error_setitem_same {A : Type} (i : nat) (v : A) (l : list A) :
  (i < List.length l)%nat -> nth_error (setitem i v l) i = Some v.
Proof.
  revert i. induction l as [|h t IH]; intros [|j] H; simpl in *; try lia; auto.
  apply IH. lia.
Qed.

Lemma nth_error_setitem_other {A : Type} (i j : nat) (v : A) (l : list A) :
  i <> j -> nth_error (setitem i v l) j = nth_error l j.
Proof.
  revert i j. induction l as [|h t IH]; intros [|i] [|j] H; simpl;
    try reflexivity; try congruence.
  apply IH. congruence.
Qed.

End PyFacts.

(** ** AdaptiveMovingAverage *)

Section Filter.
Import Py functions.
Local Open Scope Q_scope.

Variables a_slow a_fast : Q.
Variable new_array : list Q.

(** The loop over [range(k, k + m)] raises nothing when both arrays reach
    past the range, rewrites exactly the elements of the range and leaves
    the others alone. *)
Lemma update_loop_seq (m k : nat) (avg : list Q) :
  List.length new_array = List.length avg ->
  (k + m <= List.length avg)%nat ->
  exists avg',
    update_loop a_slow a_fast new_array (seq k m) avg = (avg', None) /\
    List.length avg' = List.length avg /\
    (forall j, (j < k \/ k + m <= j)%nat ->
               nth_error avg' j = nth_error avg j) /\
    (forall j x a, (k <= j < k + m)%nat ->
                   nth_error new_array j = Some x ->
                   nth_error avg j = Some a ->
                   nth_error avg' j = Some (smooth a_slow a_fast x a)).
Proof.
  revert k avg. induction m as [|m IH]; intros k avg Hlen Hk.
  - exists avg. simpl. repeat split; auto. intros; lia.
  - simpl.
    destruct (nth_error new_array k) as [x|] eqn:Ex.
    2:{ apply nth_error_None in Ex. lia. }
    destruct (nth_error avg k) as [a|] eqn:Ea.
    2:{ apply nth_error_None in Ea. lia. }
    set (v := smooth a_slow a_fast x a).
    destruct (IH (S k) (setitem k v avg)) as (avg' & Hrun & Hl & Hout & Hin).
    + now rewrite length_setitem.
    + rewrite length_setitem. lia.
    + exists avg'. rewrite length_setitem in Hl.
      split; [exact Hrun|]. split; [exact Hl|]. split.
      * intros j Hj. rewrite Hout by lia.
        apply nth_error_setitem_other. lia.
      * intros j x' a' Hj Hx' Ha'.
        destruct (Nat.eq_dec j k) as [->|Hne].
        -- rewrite Hout by lia.
           rewrite nth_error_setitem_same by lia.
           unfold v. congruence.
        -- apply Hin; [lia|exact Hx'|].
           rewrite nth_error_setitem_other by lia. exact Ha'.
Qed.

End Filter.

Section FilterBounds.
Import Py functions.
Local Open Scope Q_scope.

(** In exact arithmetic a weighted mean with a weight in (0, 1] lies
    between its two ends. *)
Lemma smooth_between (a_s a_f x a : Q) :
  0 < a_s <= 1 -> 0 < a_f <= 1 ->
  Qmin a x <= smooth a_s a_f x a <= Qmax a x.
Proof.
  intros [Hs0 Hs1] [Hf0 Hf1]. unfold smooth, pick_alpha.
  destruct (Qltb x a) eqn:E.
  - apply Qltb_lt in E.
    rewrite (Q.min_r a x), (Q.max_l a x) by (apply Qlt_le_weak; exact E).
    split; Lqa.nra.
  - apply Qltb_ge in E.
    rewrite (Q.min_l a x), (Q.max_r a x) by exact E.
    split; Lqa.nra.
Qed.

End FilterBounds.

Section FilterUpdate.
Import Py functions.
Local Open Scope Q_scope.

(** The only exception the smoothing loop can raise is [IndexError]. *)
Lemma update_loop_error (a_s a_f : Q) (new_array : list Q) (idx : list nat) :
  forall avg avg' e,
    update_loop a_s a_f new_array idx avg = (avg', Some e) -> e = IndexError.
Proof.
  induction idx as [|i rest IH]; intros avg avg' e H; simpl in H.
  - discriminate.
  - destruct (nth_error new_array i); [destruct (nth_error avg i)|].
    + eapply IH; eassumption.
    + now inversion H.
    + now inversion H.
Qed.

(** C8. [update] raises [ValueError] if and only if the input length
    differs from the configured size; the exception is what the caller gets
    back, and the filter is then exactly as before the call. *)
Theorem update_size_mismatch (self : AdaptiveMovingAverage) (input : list Q) :
  ((exists msg, snd (update self input) = inl (ValueError msg)) <->
   List.length input <> size self) /\
  (List.length input <> size self -> fst (update self input) = self).
Proof.
  unfold update.
  destruct (Nat.eqb_spec (List.length input) (size self)) as [Heq|Hne]; simpl.
  - split; [|intros Hn; contradiction].
    split; [|intros Hn; contradiction].
    intros [msg H]. exfalso.
    destruct (initialized self); simpl in H; [|discriminate].
    destruct (update_loop _ _ _ _ _) as [avg [e|]] eqn:E; simpl in H.
    + apply update_loop_error in E. subst e. discriminate.
    + discriminate.
  - split; [|reflexivity].
    split; [intros _; exact Hne|].
    intros _. eexists. reflexivity.
Qed.

(** The three-point filter fed two values. *)
Lemma update_size_mismatch_witness :
  List.length [1; 2] <> size warm_filter /\
  fst (update warm_filter [1; 2]) = warm_filter /\
  snd (update warm_filter [1; 2])
  = inl (ValueError "Expected 3 values, got 2").
Proof.
  assert (Hne : List.length [1; 2] <> size warm_filter) by (simpl; lia).
  split; [exact Hne|]. split.
  - exact (proj2 (update_size_mismatch warm_filter [1; 2]) Hne).
  - reflexivity.
Defined.

End FilterUpdate.

(** ** AdaptiveMovingAverage on binary64 *)

Section Filter64.
Import Py64 functions64.
Local Open Scope float_scope.

Variables a_slow a_fast : float.
Variable new_array : list float.


End Filter64.

Section FilterUpdate64.
Import Py64 functions64.
Local Open Scope float_scope.




End FilterUpdate64.

(** ** Slices *)

Section Slices.
Import Py functions.

Lemma first_half_firstn (subset : list Q) :
  first_half subset = firstn 10 subset.
Proof.
  unfold first_half, slice, slice_bound. simpl skipn.
  rewrite Nat.sub_0_r.
  destruct (Nat.le_gt_cases (List.length subset) 10) as [Hle|Hgt].
  - replace (Z.to_nat _) with (List.length subset) by (simpl; lia).
    rewrite firstn_all. symmetry. now apply firstn_all2.
  - replace (Z.to_nat _) with 10%nat by (simpl; lia). reflexivity.
Qed.

Lemma second_half_skipn (subset : list Q) :
  second_half subset = skipn (List.length subset - 6) subset.
Proof.
  unfold second_half, slice, slice_bound.
  cbn [Z.ltb Z.compare].
  assert (E : Z.to_nat (Z.min (Z.of_nat (List.length subset))
                          (Z.max 0 (-6 + Z.of_nat (List.length subset))))
              = (List.length subset - 6)%nat) by lia.
  rewrite E.
  apply firstn_all2. rewrite length_skipn. lia.
Qed.

End Slices.

(** ** extract_signal_features *)

Section Extract.
Import Py functions.
Local Open Scope Q_scope.

(** The function hands nothing back, whatever the samples. *)
Lemma extract_returns_none (samples : list Q) (start_index end_trim : Z)
    (cf : features) :
  snd (extract_signal_features samples start_index end_trim cf) = PyNone.
Proof.
  unfold extract_signal_features.
  destruct (List.length _ =? 0)%nat; reflexivity.
Qed.

(** C10. On a non-empty interior slice the leading feature is the sum of the
    first 10 elements of the slice over 10 and the trailing feature the sum
    of its last 6 elements over 6, whatever the length of the slice: a slice
    shorter than 10 (or 6) is summed whole and still divided by 10 (or 6),
    and on a slice shorter than 16 some position lies in both windows. *)
Theorem extract_fixed_windows (samples : list Q) (start_index end_trim : Z)
    (cf : features) :
  let subset := subset_of samples start_index end_trim in
  let cf' := fst (extract_signal_features samples start_index end_trim cf) in
  subset <> [] ->
  first_half_sum cf' = sum (firstn 10 subset) / 10 /\
  second_half_sum cf' = sum (spec.trailing 6 subset) / 6 /\
  ((List.length subset < 10)%nat -> first_half_sum cf' = sum subset / 10) /\
  ((List.length subset < 6)%nat -> second_half_sum cf' = sum subset / 6) /\
  ((List.length subset < 16)%nat ->
   exists i, (i < List.length (firstn 10 subset))%nat /\
             (List.length subset - List.length (spec.trailing 6 subset) <= i
              < List.length subset)%nat).
Proof.
  intros subset cf' Hne. unfold cf', extract_signal_features.
  fold subset.
  destruct subset as [|s0 rest] eqn:Es; [contradiction|].
  rewrite <- Es in *. replace (List.length subset =? 0)%nat with false
    by (rewrite Es; reflexivity).
  cbn [fst first_half_sum second_half_sum update_sums].
  rewrite first_half_firstn, second_half_skipn. unfold spec.trailing.
  split; [reflexivity|]. split; [reflexivity|]. split; [|split].
  - intros Hl. rewrite firstn_all2 by lia. reflexivity.
  - intros Hl. replace (List.length subset - 6)%nat with 0%nat by lia.
    reflexivity.
  - intros Hl. rewrite length_firstn, length_skipn.
    assert (0 < List.length subset)%nat by (rewrite Es; simpl; lia).
    exists (List.length subset - 6)%nat. lia.
Qed.

(** The docstring example: its slice has seven elements. *)
Lemma extract_fixed_windows_witness :
  subset_of example_samples 2 1 <> [] /\
  first_half_sum example_features = sum [30; 40; 50; 60; 70; 80; 90] / 10 /\
  second_half_sum example_features = sum [40; 50; 60; 70; 80; 90] / 6.
Proof.
  assert (Hne : subset_of example_samples 2 1 <> [])
    by (vm_compute; discriminate).
  split; [exact Hne|].
  destruct (extract_fixed_windows example_samples 2 1 current_features_init Hne)
    as (H1 & H2 & _).
  split; [exact H1|exact H2].
Defined.

(** C6, evaluated.  On the docstring example with [start_index=2] and
    [end_trim=1] the interior slice is 30..90.  The code sets [total_sum] to
    420, [first_half_sum] to 42 (the whole slice of seven summed and divided
    by the fixed 10), [second_half_sum] to 65 (the trailing six divided by
    6) and [diff] to -23.  The docstring of the function gives 120, 300 and
    -180 for the last three, the sums of the slice's two halves; the claim
    gives 12 for [first_half_sum].  The code produces none of these. *)
Theorem extract_docstring_example (cf : features) :
  let cf' := fst (extract_signal_features example_samples 2 1 cf) in
  let subset := subset_of example_samples 2 1 in
  subset = [30; 40; 50; 60; 70; 80; 90] /\
  total_sum cf' == 420 /\
  first_half_sum cf' == 42 /\
  second_half_sum cf' == spec.mean (spec.trailing 6 subset) /\
  second_half_sum cf' == 65 /\
  diff cf' == first_half_sum cf' - second_half_sum cf' /\
  diff cf' == -23 /\
  ~ first_half_sum cf' == 12 /\
  ~ first_half_sum cf' == 120 /\
  ~ second_half_sum cf' == 300 /\
  ~ diff cf' == -180.
Proof.
  intros cf' subset.
  repeat split; try (vm_compute; reflexivity); vm_compute; discriminate.
Qed.

End Extract.

(** ** force_two_digit and update_peak_tracker *)

Section PeakTracker.
Import Py functions.
Local Open Scope Q_scope.

(** On 0..99 the format [02d] writes exactly two decimal digits. *)
Lemma format_02d_two_digits (n : Z) :
  (0 <= n <= 99)%Z -> format_02d n = spec.two_digits n.
Proof.
  intros Hn.
  assert (Hall : forallb (fun k => String.eqb (format_02d (Z.of_nat k))
                                     (spec.two_digits (Z.of_nat k)))
                   (seq 0 100) = true) by (vm_compute; reflexivity).
  rewrite forallb_forall in Hall.
  specialize (Hall (Z.to_nat n)).
  rewrite Z2Nat.id in Hall by lia.
  apply String.eqb_eq, Hall, in_seq. lia.
Qed.

(** [force_two_digit]: truncate, clamp to 0..99, two digits. *)
Lemma force_two_digit_spec (value : Q) :
  force_two_digit value = spec.two_digits (Z.max 0 (Z.min 99 (int value))).
Proof.
  unfold force_two_digit. apply format_02d_two_digits. lia.
Qed.

(** What the call on key ['diff'] returns: a trigger with the formatted
    ratio when the value is negative and the peak exceeded 10, [False]
    otherwise. *)
Lemma tracker_returns (cf : features) :
  snd (update_peak_tracker "diff" cf) =
    if Qltb (diff cf) 0 && Qltb 10 (peak cf)
    then inr (PyPlay (force_two_digit (ratio cf * 100)))
    else inr PyFalse.
Proof.
  unfold update_peak_tracker. cbn [getitem String.eqb Ascii.eqb Bool.eqb].
  destruct (Qltb (diff cf) 0); [destruct (Qltb 10 (peak cf))|]; reflexivity.
Qed.

(** The state [tracker_after_peak] in numbers. *)
Lemma tracker_after_peak_values :
  diff tracker_after_peak == -1 /\
  peak tracker_after_peak == 874 # 10 /\
  ratio tracker_after_peak == 126 # 1000 /\
  cumulative_total tracker_after_peak == 874 # 10.
Proof.
  repeat split; vm_compute; reflexivity.
Qed.

(** What a call leaves in [cumulative_total] and [peak] when the value is
    below zero: with a trigger both are reset; without one the negative
    value is added to the total that was just reset. *)
Lemma reset_call_state (cf : features) :
  diff cf < 0 ->
  let cf' := fst (update_peak_tracker "diff" cf) in
  peak cf' == 0 /\
  (10 < peak cf -> cumulative_total cf' == 0) /\
  (peak cf <= 10 -> cumulative_total cf' == diff cf).
Proof.
  intros Hd. unfold update_peak_tracker.
  cbn [getitem String.eqb Ascii.eqb Bool.eqb].
  rewrite (proj2 (Qltb_lt _ _) Hd).
  assert (Hmax : max (diff cf) 0 = 0).
  { unfold max. now rewrite (proj2 (Qltb_lt _ _) Hd). }
  destruct (Qltb 10 (peak cf)) eqn:Ep; cbn [fst]; rewrite Hmax.
  - apply Qltb_lt in Ep. cbn.
    split; [reflexivity|]. split; [reflexivity|].
    intros Hle. exfalso. exact (Qlt_not_le _ _ Ep Hle).
  - apply Qltb_ge in Ep.
    cbn [peak cumulative_total set_peak set_cumulative_total set_ratio
         first_half_sum second_half_sum total_sum diff timestamp ratio].
    assert (Hnp : Qltb 0 (diff cf) = false).
    { apply Qltb_ge. apply Qlt_le_weak. exact Hd. }
    rewrite Hnp. cbn [peak cumulative_total].
    split; [reflexivity|]. split.
    + intros Hlt. exfalso. exact (Qlt_not_le _ _ Hlt Ep).
    + intros _. cbn. apply Qplus_0_l.
Qed.

(** C3, evaluated.  A call with a negative value and a peak of at most 10
    ends with [cumulative_total] equal to that negative value: the reset to
    0 is followed by the accumulation. *)
Theorem cumulative_total_ends_negative (cf : features) :
  diff cf < 0 -> peak cf <= 10 ->
  let cf' := fst (update_peak_tracker "diff" cf) in
  snd (update_peak_tracker "diff" cf) = inr PyFalse /\
  cumulative_total cf' == diff cf /\
  cumulative_total cf' < 0.
Proof.
  intros Hd Hp cf'.
  destruct (reset_call_state cf Hd) as (_ & _ & Hc).
  specialize (Hc Hp). fold cf' in Hc.
  split; [|split; [exact Hc|now rewrite Hc]].
  rewrite tracker_returns.
  replace (Qltb 10 (peak cf)) with false
    by (symmetry; apply Qltb_ge; exact Hp).
  now rewrite andb_false_r.
Qed.

(** The docstring example run through the extractor and then the tracker,
    from the initial features. *)
Lemma cumulative_total_ends_negative_witness :
  diff example_features < 0 /\ peak example_features <= 10 /\
  cumulative_total (fst (update_peak_tracker "diff" example_features)) == -23.
Proof.
  assert (Hd : diff example_features < 0) by reflexivity.
  assert (Hp : peak example_features <= 10) by (vm_compute; discriminate).
  split; [exact Hd|]. split; [exact Hp|].
  destruct (cumulative_total_ends_negative example_features Hd Hp)
    as (_ & Hc & _).
  rewrite Hc. vm_compute. reflexivity.
Defined.

End PeakTracker.

(** ** force_two_digit and update_peak_tracker on binary64 *)

Section PeakTracker64.
Import Py64 functions64.
Local Open Scope string_scope.
Local Open Scope float_scope.

(** [int] on a float returns, or raises [ValueError] (on NaN only) or
    [OverflowError] (on an infinity only). *)
Lemma int_cases (x : float) :
  (exists n, int x = inr n /\ isnan x = false /\ isinf x = false) \/
  (exists msg, int x = inl (ValueError msg) /\
               isnan x = true /\ isinf x = false) \/
  (exists msg, int x = inl (OverflowError msg) /\
               isnan x = false /\ isinf x = true).
Proof.
  unfold int, isnan, isinf.
  destruct (Prim2SF x); [left|right; right|right; left|left]; eauto.
Qed.

(** The truncation done by [int] is the truncation of the number the
    float stands for. *)
Lemma int_value (x : float) (q : Q) :
  value x = Some q -> int x = inr (Py.int q).
Proof.
  unfold value, int.
  destruct (Prim2SF x) as [s|s| |s m e]; try discriminate;
    intros [= <-]; [reflexivity|].
  f_equal. cbv beta iota delta [Py.int Qnum Qden].
  destruct (Z.le_gt_cases 0 e) as [He|He].
  - rewrite (Z.max_r 0 e), (Z.max_l 0 (- e)) by lia.
    change (Z.to_pos (2 ^ 0)) with 1%positive.
    rewrite Z.quot_1_r, Z.shiftl_mul_pow2 by lia.
    destruct s; reflexivity.
  - rewrite (Z.max_l 0 e), (Z.max_r 0 (- e)) by lia.
    assert (Hp : (0 < 2 ^ (- e))%Z) by (apply Z.pow_pos_nonneg; lia).
    rewrite Z2Pos.id by exact Hp.
    change (2 ^ 0)%Z with 1%Z. cbv beta iota. rewrite Pos.mul_1_r.
    replace (Z.shiftl (Z.pos m) e) with (Z.pos m / 2 ^ (- e))%Z.
    2:{ rewrite <- Z.shiftr_div_pow2 by lia.
        rewrite <- Z.shiftl_opp_r. f_equal. lia. }
    destruct s.
    + rewrite Z.quot_opp_l by lia. f_equal.
      symmetry. apply Z.quot_div_nonneg; lia.
    + symmetry. apply Z.quot_div_nonneg; lia.
Qed.

(** [force_two_digit] by the kind of its argument. *)
Lemma force_two_digit_cases (v : float) :
  (forall n, int v = inr n ->
     force_two_digit v = inr (spec.two_digits (Z.max 0 (Z.min 99 n)))) /\
  (isnan v = true -> force_two_digit v = inr "00") /\
  (isinf v = true -> exists msg, force_two_digit v = inl (OverflowError msg)).
Proof.
  unfold force_two_digit, isnan, isinf, int.
  destruct (Prim2SF v) as [s|s| |s m e]; cbv beta iota zeta.
  - split; [|split; discriminate].
    intros n [= <-]. rewrite format_02d_two_digits by lia. reflexivity.
  - split; [discriminate|]. split; [discriminate|].
    intros _. eexists. reflexivity.
  - split; [discriminate|]. split; [reflexivity|discriminate].
  - split; [|split; discriminate].
    intros n [= <-]. rewrite format_02d_two_digits by lia. reflexivity.
Qed.





End PeakTracker64.

(** ** soundscape *)

Section Soundscape.
Import Py sound.
Local Open Scope Q_scope.

(** After [soundscape] the tone is playing, whatever the inputs. *)
Lemma soundscape_starts_tone (strength shape : Q) (g : globals) :
  is_playing (fst (soundscape strength shape g)) = true.
Proof.
  unfold soundscape, start_tone. cbn [is_playing].
  destruct (is_playing g); reflexivity.
Qed.

(** On a strength that is not negative the code computes the mapping of the
    specification: the lower clamp has nothing to do there. *)
Lemma soundscape_nonnegative_strength (strength shape : Q) (g : globals) :
  0 <= strength ->
  let g' := fst (soundscape strength shape g) in
  current_frequency g' == fst (spec.map_signal strength) /\
  current_volume g' == snd (spec.map_signal strength).
Proof.
  intros Hs.
  assert (Hr : min 1 (strength / max_expected_strength)
               == spec.clamp (strength / max_expected_strength) 0 1).
  { unfold spec.clamp, min.
    assert (H0 : 0 <= strength / max_expected_strength).
    { unfold max_expected_strength. apply Qle_shift_div_l; [reflexivity|].
      Lqa.lra. }
    destruct (Qltb (strength / max_expected_strength) 1) eqn:E.
    - apply Qltb_lt in E.
      rewrite (Q.min_r 1 _) by (apply Qlt_le_weak; exact E).
      now rewrite Q.max_r.
    - apply Qltb_ge in E. rewrite (Q.min_l 1 _) by exact E.
      now rewrite Q.max_r. }
  assert (Hf : current_frequency (fst (soundscape strength shape g))
               = min_freq + (max_freq - min_freq)
                            * min 1 (strength / max_expected_strength)).
  { unfold soundscape, start_tone. cbn [is_playing].
    destruct (is_playing g); reflexivity. }
  assert (Hv : current_volume (fst (soundscape strength shape g))
               = min_volume + (max_volume - min_volume)
                              * min 1 (strength / max_expected_strength)).
  { unfold soundscape, start_tone. cbn [is_playing].
    destruct (is_playing g); reflexivity. }
  cbv zeta. rewrite Hf, Hv. unfold spec.map_signal. cbn [fst snd].
  rewrite Hr. split; reflexivity.
Qed.

(** C7, evaluated.  With strength -100 the code leaves volume -0.6 and
    frequency -200 in the globals, where the mapping with the ratio clamped
    to [0, 1] gives volume 0.05 and frequency 400; the tone is started. *)
Theorem soundscape_negative_strength :
  let g := fst (soundscape (-100) 1 globals_init) in
  current_volume g == - (6 # 10) /\
  current_frequency g == -200 /\
  snd (spec.map_signal (-100)) == 5 # 100 /\
  fst (spec.map_signal (-100)) == 400 /\
  ~ current_volume g == snd (spec.map_signal (-100)) /\
  ~ current_frequency g == fst (spec.map_signal (-100)) /\
  is_playing globals_init = false /\ is_playing g = true.
Proof.
  repeat split; try (vm_compute; reflexivity);
    intros H; vm_compute in H; discriminate.
Qed.

End Soundscape.

(** ** The stream callback: phase accumulation *)

Section Phase.
Import sound.
Local Open Scope R_scope.

Lemma Int_part_minus_IZR (y : R) (n : Z) :
  Int_part (y - IZR n) = (Int_part y - n)%Z.
Proof.
  symmetry. apply Int_part_spec. rewrite minus_IZR.
  destruct (base_Int_part y) as [Hle Hgt]. split; lra.
Qed.

Lemma fmod_0 (m : R) : fmod 0 m = 0.
Proof.
  unfold fmod. unfold Rdiv. rewrite Rmult_0_l.
  change 0 with (INR 0). rewrite Int_part_INR. simpl. ring.
Qed.

(** Wrapping before adding changes nothing once the sum is wrapped. *)
Lemma fmod_fmod_plus (a b m : R) :
  m <> 0 -> fmod (fmod a m + b) m = fmod (a + b) m.
Proof.
  intros Hm. unfold fmod.
  set (n := Int_part (a / m)).
  replace ((a - IZR n * m + b) / m) with ((a + b) / m - IZR n)
    by (field; exact Hm).
  rewrite Int_part_minus_IZR, minus_IZR. ring.
Qed.

Lemma two_PI_neq_0 : 2 * PI <> 0.
Proof. pose proof PI_RGT_0. lra. Qed.

Lemma callback_frequency (frames : nat) (g : globals) :
  current_frequency (snd (callback frames g)) = current_frequency g.
Proof. reflexivity. Qed.

(** From a phase that is the wrapping of [p], the blocks add their total
    sample count's worth of phase to [p] before the wrapping. *)
Lemma run_callbacks_phase (blocks : list nat) :
  forall (g : globals) (p : R),
    phase g = fmod p (2 * PI) ->
    phase (run_callbacks blocks g) =
      fmod (p + 2 * PI * Q2R (current_frequency g) * INR (list_sum blocks)
                / IZR sample_rate) (2 * PI).
Proof.
  induction blocks as [|b bs IH]; intros g p Hp.
  - simpl. rewrite Hp. f_equal. unfold Rdiv. ring.
  - change (run_callbacks (b :: bs) g)
      with (run_callbacks bs (snd (callback b g))).
    rewrite (IH (snd (callback b g))
               (p + 2 * PI * Q2R (current_frequency g) * INR b
                    / IZR sample_rate)).
    + rewrite callback_frequency. f_equal.
      simpl list_sum. rewrite plus_INR. unfold Rdiv. ring.
    + cbn [callback snd phase]. rewrite Hp.
      apply fmod_fmod_plus, two_PI_neq_0.
Qed.

Lemma list_sum_repeat (frames k : nat) :
  list_sum (repeat frames k) = (frames * k)%nat.
Proof.
  induction k as [|k IH]; simpl; lia.
Qed.

(** In exact real arithmetic the phase depends on the total sample count
    only: from a freshly started tone at frequency [f], after [k] blocks of
    [frames] samples it is [2 pi f frames k / sample_rate] wrapped to one
    turn, and two ways of cutting one total sample count into blocks end on
    the same phase. *)
Lemma phase_after_blocks_exact (f v : Q) (p0 : R) (frames k : nat) :
  let g0 := fst (start_tone (mkGlobals f v false false p0)) in
  phase (run_callbacks (repeat frames k) g0) =
    fmod (2 * PI * Q2R f * INR frames * INR k / IZR sample_rate) (2 * PI) /\
  forall blocks blocks' : list nat,
    list_sum blocks = list_sum blocks' ->
    phase (run_callbacks blocks g0) = phase (run_callbacks blocks' g0).
Proof.
  intros g0.
  assert (H0 : phase g0 = fmod 0 (2 * PI)) by (rewrite fmod_0; reflexivity).
  split.
  - rewrite (run_callbacks_phase _ g0 0 H0).
    rewrite list_sum_repeat, mult_INR. f_equal.
    unfold g0; cbn [start_tone is_playing fst current_frequency].
    unfold Rdiv. ring.
  - intros blocks blocks' Hsum.
    rewrite (run_callbacks_phase blocks g0 0 H0).
    rewrite (run_callbacks_phase blocks' g0 0 H0).
    now rewrite Hsum.
Qed.

End Phase.

(** ** The stream callback on binary64 *)

Section Phase64.
Import Py64 sound64.
Local Open Scope float_scope.






End Phase64.

(** ** The curve store *)

Section CurveStore.
Import serial_reader.

Context {A : Type}.
Variable m : nat.

(** A bounded deque built by appends holds the last [m] items appended, in
    the order they came. *)
Lemma deque_appends (xs : list A) :
  let d := fold_left deque.append xs (deque.empty (Some m)) in
  deque.maxlen d = Some m /\
  deque.items d = skipn (List.length xs - m) xs.
Proof.
  induction xs as [|x xs IH] using rev_ind.
  - simpl. split; reflexivity.
  - cbv zeta in *. rewrite fold_left_app. simpl fold_left.
    destruct IH as [Hm Hi].
    set (d := fold_left deque.append xs (deque.empty (Some m))) in *.
    unfold deque.append. rewrite Hm, Hi.
    assert (Hsk : skipn (List.length xs - m) xs ++ [x]
                  = skipn (List.length xs - m) (xs ++ [x])).
    { rewrite skipn_app.
      replace (List.length xs - m - List.length xs)%nat with 0%nat by lia.
      reflexivity. }
    rewrite Hsk, length_skipn, !length_app. simpl List.length.
    destruct (Nat.ltb_spec m (List.length xs + 1 - (List.length xs - m)))
      as [Hlt|Hge]; cbn [deque.maxlen deque.items]; (split; [reflexivity|]).
    + replace (List.length xs + 1 - m)%nat
        with (S (List.length xs - m)) by lia.
      rewrite <- (skipn_skipn 1 (List.length xs - m)).
      destruct (skipn (List.length xs - m) (xs ++ [x])); reflexivity.
    + f_equal. lia.
Qed.

End CurveStore.

Section CurveStoreClaim.
Import serial_reader.

(** C9. The buffer of [serial_reader], a deque with [maxlen] 100, never
    holds more than 100 curves, whatever is appended; it always holds the
    newest ones in arrival order, so that after 101 appends it holds
    exactly the last 100 and the first curve is gone. *)
Theorem data_buffer_bounded_fifo (curves : list curve_data) :
  let d := fold_left deque.append curves (data_buffer world_init) in
  (List.length (deque.items d) <= TIME_BUFFER_SIZE)%nat /\
  deque.items d = skipn (List.length curves - TIME_BUFFER_SIZE) curves /\
  (forall oldest newest,
     curves = oldest :: newest ->
     List.length newest = TIME_BUFFER_SIZE ->
     deque.items d = newest /\ (NoDup curves -> ~ In oldest (deque.items d))).
Proof.
  intros d.
  destruct (deque_appends TIME_BUFFER_SIZE curves) as [_ Hi].
  change (deque.empty (Some TIME_BUFFER_SIZE))
    with (data_buffer world_init) in Hi.
  fold d in Hi. rewrite Hi.
  split; [rewrite length_skipn; lia|]. split; [reflexivity|].
  intros oldest newest -> Hn.
  replace (List.length (oldest :: newest) - TIME_BUFFER_SIZE)%nat with 1%nat
    by (simpl List.length; lia).
  split; [reflexivity|].
  intros Hnd. simpl skipn. now inversion Hnd.
Qed.

(** 101 curves stamped 0..100: the buffer holds those stamped 1..100. *)
Lemma data_buffer_bounded_fifo_witness :
  List.length (map stamped_curve (seq 1 100)) = TIME_BUFFER_SIZE /\
  deque.items (fold_left deque.append (map stamped_curve (seq 0 101))
                 (data_buffer world_init))
  = map stamped_curve (seq 1 100).
Proof.
  split; [reflexivity|].
  destruct (data_buffer_bounded_fifo (map stamped_curve (seq 0 101)))
    as (_ & _ & H).
  exact (proj1 (H (stamped_curve 0) (map stamped_curve (seq 1 100))
                  eq_refl eq_refl)).
Defined.

End CurveStoreClaim.

(** ** The acquisition loop *)

Section Acquisition.
Import Py functions serial_reader.
Local Open Scope Q_scope.

(** On such a filter an input of the configured length is accepted, and
    the filter stays such a filter. *)
Lemma update_accepts (n : nat) (a : AdaptiveMovingAverage) (input : list Q) :
  filter_ok n a -> List.length input = n ->
  exists a' out, update a input = (a', inr out) /\ filter_ok n a'.
Proof.
  intros [Hs Ha] Hi. unfold update.
  rewrite Hs, (proj2 (Nat.eqb_eq _ _) Hi). simpl negb. cbv iota.
  destruct (initialized a); simpl negb; cbv iota.
  - destruct (update_loop_seq (alpha_slow a) (alpha_fast a) input n 0
                (average a)) as (out & Hrun & Hlen & _);
      [congruence|simpl; lia|].
    rewrite Hrun. do 2 eexists. split; [reflexivity|].
    split; simpl; congruence.
  - do 2 eexists. split; [reflexivity|]. split; simpl; congruence.
Qed.

(** The sound block never gets as far as [soundscape]: the features object
    it subscripts is the [None] that [extract_signal_features] returned.
    The features themselves have been written by then. *)
Lemma sound_update_outcome (w : world) :
  audio (sound_update w) = audio w /\
  long_average_curve (sound_update w) = long_average_curve w /\
  fast_average_curve (sound_update w) = fast_average_curve w /\
  data_buffer (sound_update w) = data_buffer w /\
  exists e, stdout (sound_update w) = stdout w ++ [SoundUpdateError e] /\
            (forall normalized,
               vminus (get_average (fast_average_curve w))
                      (get_average (long_average_curve w)) = inr normalized ->
               e = TypeError /\
               current_features (sound_update w)
               = fst (extract_signal_features normalized default_start_index
                        default_end_trim (current_features w))).
Proof.
  unfold sound_update.
  destruct (vminus _ _) as [e|normalized] eqn:Ev.
  - repeat (split; [reflexivity|]). exists e. split; [reflexivity|].
    intros n Hn. discriminate.
  - pose proof (extract_returns_none normalized default_start_index
                  default_end_trim (current_features w)) as Hnone.
    destruct (extract_signal_features _ _ _ _) as [cf features] eqn:Ex.
    simpl in Hnone. subst features. cbn.
    repeat (split; [reflexivity|]). exists TypeError. split; [reflexivity|].
    intros n Hn. injection Hn as <-. rewrite Ex. split; reflexivity.
Qed.

(** No line, parsed or not, changes the oscillator's globals. *)
Lemma read_line_audio (now : Q) (parsed : exn + list Q) (w : world) :
  audio (read_line now parsed w) = audio w.
Proof.
  unfold read_line.
  destruct parsed as [e|values]; [destruct e; reflexivity|].
  destruct (List.length values =? CURVE_SAMPLE_SIZE)%nat; [|reflexivity].
  destruct (update (long_average_curve w) values) as [a [e|out]];
    [destruct e; reflexivity|].
  cbn [fast_average_curve set_long].
  destruct (update (fast_average_curve w) values) as [b [e|out']];
    [destruct e; reflexivity|].
  cbn [enable_sound set_fast set_long].
  destruct (enable_sound w); [|reflexivity].
  cbn [store_curve audio].
  rewrite (proj1 (sound_update_outcome _)). reflexivity.
Qed.

(** A line of the right length on well-formed filters: both updates go
    through, the sound block runs when enabled, the curve is stored. *)
Lemma read_line_valid (now : Q) (values : list Q) (w : world) :
  List.length values = CURVE_SAMPLE_SIZE ->
  filter_ok CURVE_SAMPLE_SIZE (long_average_curve w) ->
  filter_ok CURVE_SAMPLE_SIZE (fast_average_curve w) ->
  exists a b c,
    filter_ok CURVE_SAMPLE_SIZE a /\ filter_ok CURVE_SAMPLE_SIZE b /\
    fst (update (long_average_curve w) values) = a /\
    fst (update (fast_average_curve w) values) = b /\
    curve_values c = values /\
    read_line now (inr values) w =
      store_curve c
        (if enable_sound w then sound_update (set_fast b (set_long a w))
         else set_fast b (set_long a w)).
Proof.
  intros Hv Hlong Hfast. unfold read_line.
  rewrite (proj2 (Nat.eqb_eq _ _) Hv).
  destruct (update_accepts _ _ values Hlong Hv) as (a & out & Hu & Ha).
  destruct (update_accepts _ _ values Hfast Hv) as (b & out' & Hu' & Hb).
  rewrite Hu. cbn [fast_average_curve set_long]. rewrite Hu'.
  cbn [enable_sound set_fast set_long].
  exists a, b. eexists.
  split; [exact Ha|]. split; [exact Hb|].
  split; [reflexivity|]. split; [reflexivity|].
  split; [|reflexivity]. reflexivity.
Qed.

(** C1, evaluated.  For a parsed line of 25 samples with audio feedback
    enabled, [extract_signal_features] is called on the normalized curve
    (signal average minus baseline) and writes the features, but it returns
    [None]: subscripting that raises [TypeError], the block prints a sound
    update error, and [soundscape] is not called; the oscillator's globals
    are as before.  The curve is stored all the same. *)
Theorem read_line_sound_update_fails (now : Q) (values : list Q) (w : world) :
  List.length values = CURVE_SAMPLE_SIZE ->
  enable_sound w = true ->
  filter_ok CURVE_SAMPLE_SIZE (long_average_curve w) ->
  filter_ok CURVE_SAMPLE_SIZE (fast_average_curve w) ->
  let w' := read_line now (inr values) w in
  stdout w' = stdout w ++ [SoundUpdateError TypeError] /\
  audio w' = audio w /\
  current_features w'
  = fst (extract_signal_features
           (zip_minus (get_average (fast_average_curve w'))
                      (get_average (long_average_curve w')))
           default_start_index default_end_trim (current_features w)) /\
  latest_curve w' <> None.
Proof.
  intros Hv Hen Hlong Hfast w'.
  destruct (read_line_valid now values w Hv Hlong Hfast)
    as (a & b & c & Ha & Hb & _ & _ & _ & Hw).
  rewrite Hen in Hw. fold w' in Hw.
  set (w2 := set_fast b (set_long a w)) in *.
  destruct (sound_update_outcome w2) as (Haud & Hl & Hf & _ & e & He & Hty).
  assert (Hnorm : vminus (get_average (fast_average_curve w2))
                         (get_average (long_average_curve w2))
                  = inr (zip_minus (average b) (average a))).
  { unfold vminus, get_average. cbn [w2 set_fast set_long fast_average_curve
                                      long_average_curve].
    destruct Ha as [_ Ha]. destruct Hb as [_ Hb].
    now rewrite Hb, Ha, Nat.eqb_refl. }
  destruct (Hty _ Hnorm) as [-> Hcf].
  rewrite Hw. cbn [store_curve stdout audio current_features latest_curve
                    fast_average_curve long_average_curve].
  rewrite He, Haud, Hcf, Hl, Hf.
  split; [reflexivity|]. split; [reflexivity|].
  split; [reflexivity|discriminate].
Qed.

(** The first line after start-up: 25 samples, sound enabled. *)
Lemma read_line_sound_update_fails_witness :
  List.length first_line = CURVE_SAMPLE_SIZE /\
  enable_sound world_init = true /\
  filter_ok CURVE_SAMPLE_SIZE (long_average_curve world_init) /\
  filter_ok CURVE_SAMPLE_SIZE (fast_average_curve world_init) /\
  stdout (read_line 0 (inr first_line) world_init)
  = [SoundUpdateError TypeError] /\
  sound.is_playing (audio (read_line 0 (inr first_line) world_init)) = false.
Proof.
  split; [reflexivity|]. split; [reflexivity|].
  split; [split; reflexivity|]. split; [split; reflexivity|].
  destruct (read_line_sound_update_fails 0 first_line world_init
              eq_refl eq_refl (conj eq_refl eq_refl) (conj eq_refl eq_refl))
    as (Hout & Haudio & _).
  split.
  - exact Hout.
  - rewrite Haudio. reflexivity.
Defined.

End Acquisition.

(** ** The curve store inside the loop *)

Section BufferInLoop.
Import Py functions serial_reader.

Lemma append_buffer_ok (d : deque.t curve_data) (c : curve_data) :
  buffer_ok d -> buffer_ok (deque.append d c).
Proof.
  intros [Hm Hl]. unfold deque.append. rewrite Hm.
  destruct (Nat.ltb_spec TIME_BUFFER_SIZE (List.length (deque.items d ++ [c])))
    as [Hlt|Hge]; split; cbn [deque.maxlen deque.items]; try reflexivity.
  - rewrite length_app in Hlt. simpl in Hlt.
    destruct (deque.items d ++ [c]) eqn:E; simpl; [lia|].
    apply (f_equal (@List.length _)) in E.
    rewrite length_app in E. simpl in E. lia.
  - exact Hge.
Qed.

(** A line leaves the buffer alone or appends one curve to it. *)
Lemma read_line_buffer (now : Q) (parsed : exn + list Q) (w : world) :
  data_buffer (read_line now parsed w) = data_buffer w \/
  exists c, data_buffer (read_line now parsed w)
            = deque.append (data_buffer w) c.
Proof.
  unfold read_line.
  destruct parsed as [e|values]; [left; destruct e; reflexivity|].
  destruct (List.length values =? CURVE_SAMPLE_SIZE)%nat; [|left; reflexivity].
  destruct (update (long_average_curve w) values) as [a [e|out]];
    [left; destruct e; reflexivity|].
  cbn [fast_average_curve set_long].
  destruct (update (fast_average_curve w) values) as [b [e|out']];
    [left; destruct e; reflexivity|].
  cbn [enable_sound set_fast set_long].
  right. eexists.
  destruct (enable_sound w); cbn [store_curve data_buffer]; [|reflexivity].
  match goal with
  | |- context [sound_update ?x] =>
      destruct (sound_update_outcome x) as (_ & _ & _ & Hd & _)
  end.
  rewrite Hd. reflexivity.
Qed.

(** Whatever lines arrive after start-up, the buffer read back holds at
    most 100 curves. *)
Lemma read_loop_buffer_bounded (lines : list (Q * (exn + list Q))) :
  (List.length (get_buffer (_read_loop lines world_init))
   <= TIME_BUFFER_SIZE)%nat.
Proof.
  unfold get_buffer, _read_loop.
  assert (H0 : buffer_ok (data_buffer world_init))
    by (split; [reflexivity|simpl; lia]).
  revert H0. generalize world_init.
  induction lines as [|l lines IH]; intros w Hw; simpl fold_left.
  - exact (proj2 Hw).
  - apply IH.
    destruct (read_line_buffer (fst l) (snd l) w) as [->|[c ->]];
      [exact Hw|now apply append_buffer_ok].
Qed.

End BufferInLoop.

(** ** Invariants of the loop *)

Section LoopInvariants.
Import Py functions serial_reader.

Lemma init_filter_ok (n : nat) (a_slow a_fast : Q) :
  filter_ok n (AdaptiveMovingAverage_init n a_slow a_fast).
Proof.
  split; [reflexivity|]. simpl. apply repeat_length.
Qed.

Lemma reset_filter_ok (n : nat) (a : AdaptiveMovingAverage) :
  filter_ok n a -> filter_ok n (reset a).
Proof.
  intros [Hs Ha]. split; [exact Hs|]. simpl. now rewrite length_map.
Qed.

(** Every line leaves both filters well formed. *)
Lemma read_line_filters_ok (now : Q) (parsed : exn + list Q) (w : world) :
  filter_ok CURVE_SAMPLE_SIZE (long_average_curve w) ->
  filter_ok CURVE_SAMPLE_SIZE (fast_average_curve w) ->
  filter_ok CURVE_SAMPLE_SIZE (long_average_curve (read_line now parsed w)) /\
  filter_ok CURVE_SAMPLE_SIZE (fast_average_curve (read_line now parsed w)).
Proof.
  intros Hlong Hfast.
  destruct parsed as [e|values].
  - destruct e; split; assumption.
  - destruct (Nat.eq_dec (List.length values) CURVE_SAMPLE_SIZE) as [Hv|Hv].
    + destruct (read_line_valid now values w Hv Hlong Hfast)
        as (a & b & c & Ha & Hb & _ & _ & _ & ->).
      cbn [store_curve long_average_curve fast_average_curve].
      destruct (enable_sound w).
      * destruct (sound_update_outcome (set_fast b (set_long a w)))
          as (_ & -> & -> & _).
        split; assumption.
      * split; assumption.
    + unfold read_line. rewrite (proj2 (Nat.eqb_neq _ _) Hv).
      split; assumption.
Qed.

(** Whatever lines arrive, the filters stay well formed and the
    oscillator's globals stay what they were. *)
Lemma read_loop_preserves (lines : list (Q * (exn + list Q))) :
  forall w : world,
    filter_ok CURVE_SAMPLE_SIZE (long_average_curve w) ->
    filter_ok CURVE_SAMPLE_SIZE (fast_average_curve w) ->
    filter_ok CURVE_SAMPLE_SIZE (long_average_curve (_read_loop lines w)) /\
    filter_ok CURVE_SAMPLE_SIZE (fast_average_curve (_read_loop lines w)) /\
    audio (_read_loop lines w) = audio w.
Proof.
  unfold _read_loop.
  induction lines as [|l lines IH]; intros w Hl Hf; simpl fold_left.
  - split; [exact Hl|]. split; [exact Hf|reflexivity].
  - destruct (read_line_filters_ok (fst l) (snd l) w Hl Hf) as [Hl' Hf'].
    destruct (IH _ Hl' Hf') as (H1 & H2 & H3).
    split; [exact H1|]. split; [exact H2|].
    rewrite H3. apply read_line_audio.
Qed.

(** From start-up on, in particular, the tone is never started by the
    loop. *)
Lemma read_loop_never_plays (lines : list (Q * (exn + list Q))) :
  sound.is_playing (audio (_read_loop lines world_init)) = false.
Proof.
  destruct (read_loop_preserves lines world_init) as (_ & _ & ->);
    [apply init_filter_ok|apply init_filter_ok|reflexivity].
Qed.

End LoopInvariants.

(** * Further properties of the code *)

(** ** normalize_samples *)

Section Normalize.
Import Py functions.
Local Open Scope Q_scope.

Lemma min_list_le_first (l : list Q) : forall x, min_list x l <= x.
Proof.
  induction l as [|y l IH]; intros x; simpl.
  - apply Qle_refl.
  - eapply Qle_trans; [apply IH|].
    destruct (Qltb y x) eqn:E; [|apply Qle_refl].
    apply Qlt_le_weak. now apply Qltb_lt.
Qed.

Lemma min_list_le (l : list Q) :
  forall x y, In y (x :: l) -> min_list x l <= y.
Proof.
  induction l as [|z l IH]; intros x y Hy.
  - destruct Hy as [<-|[]]. apply Qle_refl.
  - change (min_list x (z :: l))
      with (min_list (if Qltb z x then z else x) l).
    destruct Hy as [<-|[<-|Hy]].
    + eapply Qle_trans; [apply min_list_le_first|].
      destruct (Qltb z x) eqn:E; [|apply Qle_refl].
      apply Qlt_le_weak. now apply Qltb_lt.
    + eapply Qle_trans; [apply min_list_le_first|].
      destruct (Qltb z x) eqn:E; [apply Qle_refl|].
      now apply Qltb_ge.
    + apply IH. now right.
Qed.

Lemma max_list_ge_first (l : list Q) : forall x, x <= max_list x l.
Proof.
  induction l as [|y l IH]; intros x; simpl.
  - apply Qle_refl.
  - eapply Qle_trans; [|apply IH].
    destruct (Qltb x y) eqn:E; [|apply Qle_refl].
    apply Qlt_le_weak. now apply Qltb_lt.
Qed.

Lemma max_list_ge (l : list Q) :
  forall x y, In y (x :: l) -> y <= max_list x l.
Proof.
  induction l as [|z l IH]; intros x y Hy.
  - destruct Hy as [<-|[]]. apply Qle_refl.
  - change (max_list x (z :: l))
      with (max_list (if Qltb x z then z else x) l).
    destruct Hy as [<-|[<-|Hy]].
    + eapply Qle_trans; [|apply max_list_ge_first].
      destruct (Qltb x z) eqn:E; [|apply Qle_refl].
      apply Qlt_le_weak. now apply Qltb_lt.
    + eapply Qle_trans; [|apply max_list_ge_first].
      destruct (Qltb x z) eqn:E; [apply Qle_refl|].
      now apply Qltb_ge.
    + apply IH. now right.
Qed.

Lemma min_list_In (l : list Q) : forall x, In (min_list x l) (x :: l).
Proof.
  induction l as [|z l IH]; intros x.
  - now left.
  - change (min_list x (z :: l))
      with (min_list (if Qltb z x then z else x) l).
    destruct (IH (if Qltb z x then z else x)) as [H|H].
    + rewrite <- H. destruct (Qltb z x); [right; now left|now left].
    + right. now right.
Qed.

Lemma max_list_In (l : list Q) : forall x, In (max_list x l) (x :: l).
Proof.
  induction l as [|z l IH]; intros x.
  - now left.
  - change (max_list x (z :: l))
      with (max_list (if Qltb x z then z else x) l).
    destruct (IH (if Qltb x z then z else x)) as [H|H].
    + rewrite <- H. destruct (Qltb x z); [right; now left|now left].
    + right. now right.
Qed.

(** The slice [normalize_samples] works on. *)
Lemma normalize_samples_unfold (samples : list Q) (first : Z)
    (last : option Z) :
  let subset :=
    slice samples (Some first)
      (Some (match last with
             | None => Z.of_nat (List.length samples)
             | Some l => l
             end)) in
  normalize_samples samples first last =
    match subset with
    | [] => []
    | x :: rest =>
        if Qltb 0 (max_list x rest - min_list x rest) then
          map (fun s => (s - min_list x rest)
                        / (max_list x rest - min_list x rest)) subset
        else repeat (1 # 2) (List.length subset)
    end.
Proof. reflexivity. Qed.

Lemma range_positive (x : Q) (rest : list Q) (a b : Q) :
  In a (x :: rest) -> In b (x :: rest) -> a < b ->
  0 < max_list x rest - min_list x rest.
Proof.
  intros Ha Hb Hab.
  pose proof (min_list_le rest x a Ha). pose proof (max_list_ge rest x b Hb).
  Lqa.lra.
Qed.

(** X1. For samples below the overflow range, [normalize_samples] returns
    one value per element of the slice [samples[first:last]] (nothing for
    an empty slice), and every value it returns lies in [0, 1]. *)
Theorem normalize_samples_range (samples : list Q) (first : Z)
    (last : option Z) :
  let subset :=
    slice samples (Some first)
      (Some (match last with
             | None => Z.of_nat (List.length samples)
             | Some l => l
             end)) in
  let out := normalize_samples samples first last in
  finite_spread subset ->
  List.length out = List.length subset /\
  Forall (fun v => 0 <= v <= 1) out.
Proof.
  intros subset out _. unfold out. rewrite normalize_samples_unfold.
  fold subset. destruct subset as [|x rest] eqn:Es.
  - split; [reflexivity|constructor].
  - destruct (Qltb 0 (max_list x rest - min_list x rest)) eqn:E.
    + apply Qltb_lt in E. split; [apply length_map|].
      apply Forall_forall. intros v Hv. apply in_map_iff in Hv.
      destruct Hv as (s0 & <- & Hs).
      pose proof (min_list_le rest x s0 Hs).
      pose proof (max_list_ge rest x s0 Hs).
      split.
      * apply Qle_shift_div_l; [exact E|]. Lqa.lra.
      * apply Qle_shift_div_r; [exact E|]. Lqa.lra.
    + split; [apply repeat_length|].
      apply Forall_forall. intros v Hv. apply repeat_spec in Hv. subst v.
      split; discriminate.
Qed.

(** The docstring example: [samples[1:-1]] of seven samples. *)
Lemma normalize_samples_range_witness :
  finite_spread (slice normalize_example (Some 1%Z) (Some (-1)%Z)) /\
  List.length (normalize_samples normalize_example 1 (Some (-1)%Z)) = 5%nat /\
  Forall (fun v => 0 <= v <= 1)
    (normalize_samples normalize_example 1 (Some (-1)%Z)).
Proof.
  assert (H : finite_spread (slice normalize_example (Some 1%Z)
                               (Some (-1)%Z))).
  { repeat constructor; vm_compute; discriminate. }
  split; [exact H|].
  exact (normalize_samples_range normalize_example 1 (Some (-1)%Z) H).
Defined.

(** X2. For samples below the overflow range with two different elements
    in the slice, every element that is a minimum of the slice is sent to 0
    and every element that is a maximum is sent to 1. *)
Theorem normalize_samples_extremes (samples : list Q) (first : Z)
    (last : option Z) (i : nat) (x v : Q) :
  let subset :=
    slice samples (Some first)
      (Some (match last with
             | None => Z.of_nat (List.length samples)
             | Some l => l
             end)) in
  let out := normalize_samples samples first last in
  finite_spread subset ->
  (exists a b, In a subset /\ In b subset /\ a < b) ->
  nth_error subset i = Some x -> nth_error out i = Some v ->
  ((forall y, In y subset -> x <= y) -> v == 0) /\
  ((forall y, In y subset -> y <= x) -> v == 1).
Proof.
  intros subset out _ (a & b & Ha & Hb & Hab) Hx.
  unfold out. rewrite normalize_samples_unfold. fold subset.
  assert (Hin : In x subset) by (eapply nth_error_In; exact Hx).
  revert Hx.
  destruct subset as [|x0 rest] eqn:Es; [contradiction|].
  intros Hx.
  pose proof (range_positive x0 rest a b Ha Hb Hab) as Hr.
  rewrite (proj2 (Qltb_lt _ _) Hr).
  rewrite nth_error_map, Hx. simpl. intros [= <-].
  pose proof (min_list_le rest x0 x Hin) as Hmin.
  pose proof (max_list_ge rest x0 x Hin) as Hmax.
  split.
  - intros Hall. specialize (Hall _ (min_list_In rest x0)).
    assert (E : x - min_list x0 rest == 0) by Lqa.lra.
    unfold Qdiv. rewrite E. apply Qmult_0_l.
  - intros Hall. specialize (Hall _ (max_list_In rest x0)).
    assert (E : x - min_list x0 rest
                == max_list x0 rest - min_list x0 rest) by Lqa.lra.
    unfold Qdiv. rewrite E. apply Qmult_inv_r. Lqa.lra.
Qed.

(** The docstring example: 200 is the smallest and 1000 the largest of
    [samples[1:-1]], and the result is the documented one. *)
Lemma normalize_samples_extremes_witness :
  finite_spread (slice normalize_example (Some 1%Z) (Some (-1)%Z)) /\
  Forall2 Qeq
    (normalize_samples normalize_example 1 (Some (-1)%Z))
    [0; 375 # 1000; 1; 75 # 100; 1 # 2] /\
  (200 - 200) / (1000 - 200) == 0 /\ (1000 - 200) / (1000 - 200) == 1.
Proof.
  assert (H : finite_spread (slice normalize_example (Some 1%Z)
                               (Some (-1)%Z))).
  { repeat constructor; vm_compute; discriminate. }
  assert (Hd : exists a b,
     In a (slice normalize_example (Some 1%Z) (Some (-1)%Z)) /\
     In b (slice normalize_example (Some 1%Z) (Some (-1)%Z)) /\
     a < b).
  { exists 200, 500. split; [left; reflexivity|].
    split; [right; left; reflexivity|reflexivity]. }
  assert (Hall : forall (P : Q -> Prop),
             P 200 -> P 500 -> P 1000 -> P 800 -> P 600 ->
             forall y, In y (slice normalize_example (Some 1%Z)
                               (Some (-1)%Z)) -> P y).
  { intros P H1 H2 H3 H4 H5 y Hy. simpl in Hy.
    destruct Hy as [<-|[<-|[<-|[<-|[<-|[]]]]]]; assumption. }
  split; [exact H|]. split.
  - repeat constructor; vm_compute; reflexivity.
  - split.
    + apply (proj1 (normalize_samples_extremes normalize_example 1
                      (Some (-1)%Z) 0 200 _ H Hd eq_refl eq_refl)).
      apply Hall; discriminate.
    + apply (proj2 (normalize_samples_extremes normalize_example 1
                      (Some (-1)%Z) 2 1000 _ H Hd eq_refl eq_refl)).
      apply Hall; discriminate.
Defined.

(** X3. When all elements of a non-empty slice are equal, every returned
    value is 0.5. *)
Theorem normalize_samples_flat (samples : list Q) (first : Z)
    (last : option Z) :
  let subset :=
    slice samples (Some first)
      (Some (match last with
             | None => Z.of_nat (List.length samples)
             | Some l => l
             end)) in
  (forall a b, In a subset -> In b subset -> a == b) ->
  normalize_samples samples first last
  = repeat (1 # 2) (List.length subset).
Proof.
  intros subset Hflat. rewrite normalize_samples_unfold. fold subset.
  destruct subset as [|x rest] eqn:Es; [reflexivity|].
  assert (E : Qltb 0 (max_list x rest - min_list x rest) = false).
  { apply Qltb_ge.
    rewrite (Hflat _ _ (max_list_In rest x) (min_list_In rest x)).
    Lqa.lra. }
  now rewrite E.
Qed.

Lemma normalize_samples_flat_witness :
  (forall a b, In a (slice [7; 7; 7] (Some 0%Z) (Some 3%Z)) ->
               In b (slice [7; 7; 7] (Some 0%Z) (Some 3%Z)) -> a == b) /\
  normalize_samples [7; 7; 7] 0 None = [1 # 2; 1 # 2; 1 # 2].
Proof.
  assert (H : forall a b, In a (slice [7; 7; 7] (Some 0%Z) (Some 3%Z)) ->
                          In b (slice [7; 7; 7] (Some 0%Z) (Some 3%Z)) ->
                          a == b).
  { intros a b Ha Hb. simpl in Ha, Hb.
    destruct Ha as [<-|[<-|[<-|[]]]]; destruct Hb as [<-|[<-|[<-|[]]]];
      reflexivity. }
  split; [exact H|].
  exact (normalize_samples_flat [7; 7; 7] 0 None H).
Defined.

(** X4. For samples below the overflow range, normalisation keeps the
    order: a sample that is not larger than another is sent to a value that
    is not larger. *)
Theorem normalize_samples_monotone (samples : list Q) (first : Z)
    (last : option Z) (i j : nat) (x y x' y' : Q) :
  let subset :=
    slice samples (Some first)
      (Some (match last with
             | None => Z.of_nat (List.length samples)
             | Some l => l
             end)) in
  let out := normalize_samples samples first last in
  finite_spread subset ->
  nth_error subset i = Some x -> nth_error subset j = Some y ->
  nth_error out i = Some x' -> nth_error out j = Some y' ->
  x <= y -> x' <= y'.
Proof.
  intros subset out _ Hx Hy. unfold out.
  rewrite normalize_samples_unfold. fold subset.
  destruct subset as [|s0 rest] eqn:Es; [destruct i; discriminate|].
  destruct (Qltb 0 (max_list s0 rest - min_list s0 rest)) eqn:E.
  - apply Qltb_lt in E.
    rewrite !nth_error_map, Hx, Hy. simpl.
    intros [= <-] [= <-] Hxy.
    unfold Qdiv. apply Qmult_le_compat_r; [Lqa.lra|].
    apply Qinv_le_0_compat. now apply Qlt_le_weak.
  - intros Hx' Hy' _.
    apply nth_error_In, repeat_spec in Hx'.
    apply nth_error_In, repeat_spec in Hy'.
    subst. apply Qle_refl.
Qed.

Lemma normalize_samples_monotone_witness :
  finite_spread (slice [3; 9; 5] (Some 0%Z) (Some 3%Z)) /\
  nth_error (slice [3; 9; 5] (Some 0%Z) (Some 3%Z)) 0 = Some 3 /\
  nth_error (slice [3; 9; 5] (Some 0%Z) (Some 3%Z)) 2 = Some 5 /\
  nth_error (normalize_samples [3; 9; 5] 0 None) 0 = Some ((3 - 3) / (9 - 3)) /\
  nth_error (normalize_samples [3; 9; 5] 0 None) 2 = Some ((5 - 3) / (9 - 3)) /\
  3 <= 5 /\ (3 - 3) / (9 - 3) <= (5 - 3) / (9 - 3).
Proof.
  assert (H : finite_spread (slice [3; 9; 5] (Some 0%Z) (Some 3%Z))).
  { repeat constructor; vm_compute; discriminate. }
  assert (H35 : 3 <= 5) by discriminate.
  split; [exact H|].
  repeat (split; [reflexivity|]). split; [exact H35|].
  exact (normalize_samples_monotone [3; 9; 5] 0 None 0 2 3 5 _ _
           H eq_refl eq_refl eq_refl eq_refl H35).
Defined.

End Normalize.

(** ** AdaptiveMovingAverage: reset *)

Section FilterMore.
Import Py functions.
Local Open Scope Q_scope.

(** X6. [reset] keeps the size and the rates and zeroes the average; the
    update after a reset stores its input as it is, whatever the filter had
    seen before. *)
Theorem reset_then_update (a : AdaptiveMovingAverage) (input : list Q) :
  List.length input = size a ->
  size (reset a) = size a /\
  alpha_slow (reset a) = alpha_slow a /\
  alpha_fast (reset a) = alpha_fast a /\
  get_average (reset a) = repeat 0 (List.length (average a)) /\
  update (reset a) input
  = (mkAMA (size a) (alpha_slow a) (alpha_fast a) input true, inr input).
Proof.
  intros Hi. repeat (split; [reflexivity|]). split.
  - unfold get_average, reset. simpl.
    induction (average a) as [|x l IH]; simpl; congruence.
  - unfold update, reset. simpl.
    now rewrite (proj2 (Nat.eqb_eq _ _) Hi).
Qed.

Lemma reset_then_update_witness :
  List.length [7; 8; 9] = size warm_filter /\
  get_average (reset warm_filter) = [0; 0; 0] /\
  snd (update (reset warm_filter) [7; 8; 9]) = inr [7; 8; 9].
Proof.
  split; [reflexivity|].
  destruct (reset_then_update warm_filter [7; 8; 9] eq_refl)
    as (_ & _ & _ & Hz & Hu).
  split; [exact Hz|]. rewrite Hu. reflexivity.
Defined.

End FilterMore.

(** ** update_peak_tracker on any key, binary64 *)

Section TrackerKeys64.
Import Py64 functions64.
Local Open Scope string_scope.
Local Open Scope float_scope.

(** The keys of [current_features]. *)
Lemma getitem_known64 (cf : features) (key : string) :
  (In key ["total_sum"; "first_half_sum"; "second_half_sum"; "diff";
           "cumulative_total"; "peak"; "timestamp"; "ratio"] ->
   exists v, getitem cf key = inr v) /\
  (~ In key ["total_sum"; "first_half_sum"; "second_half_sum"; "diff";
             "cumulative_total"; "peak"; "timestamp"; "ratio"] ->
   getitem cf key = inl (KeyError key)).
Proof.
  unfold getitem. split.
  - intros H. simpl in H.
    repeat (destruct H as [<-|H]; [eexists; reflexivity|]). contradiction.
  - intros H.
    repeat match goal with
           | |- context [String.eqb key ?k] =>
               destruct (String.eqb_spec key k) as [->|_];
               [exfalso; apply H; simpl; tauto|]
           end.
    reflexivity.
Qed.

(** What the call returns on a key whose value is [current]. *)
Lemma tracker_returns_key (key : string) (cf : features) (current : float) :
  getitem cf key = inr current ->
  snd (update_peak_tracker key cf) =
    if (current <? 0) && (10 <? peak cf)
    then match force_two_digit (ratio cf * 100) with
         | inl e => inl e
         | inr num => inr (functions.PyPlay num)
         end
    else inr functions.PyFalse.
Proof.
  intros Hk. unfold update_peak_tracker. rewrite Hk.
  destruct (current <? 0); [destruct (10 <? peak cf)|]; cbn [andb];
    [destruct (force_two_digit (ratio cf * 100))|..]; reflexivity.
Qed.

(** X9. [update_peak_tracker] raises [KeyError] exactly on a key that is
    not one of the eight of the dict, and then leaves the dict as it was.
    On the eight keys it returns, except that it raises [OverflowError]
    when the value is below zero, the peak is above 10 and the binary64
    product [ratio * 100] is an infinity: [force_two_digit] does not catch
    what [int] raises on an infinity. *)
Theorem tracker_raises (key : string) (cf : features) :
  (In key ["total_sum"; "first_half_sum"; "second_half_sum"; "diff";
           "cumulative_total"; "peak"; "timestamp"; "ratio"] ->
   forall current, getitem cf key = inr current ->
     ((exists msg, snd (update_peak_tracker key cf)
                   = inl (OverflowError msg)) <->
      (current <? 0) && (10 <? peak cf) = true /\
      isinf (ratio cf * 100) = true) /\
     ((exists r, snd (update_peak_tracker key cf) = inr r) <->
      ~ ((current <? 0) && (10 <? peak cf) = true /\
         isinf (ratio cf * 100) = true))) /\
  (~ In key ["total_sum"; "first_half_sum"; "second_half_sum"; "diff";
             "cumulative_total"; "peak"; "timestamp"; "ratio"] ->
   update_peak_tracker key cf = (cf, inl (KeyError key))).
Proof.
  split.
  - intros _ current Hk. rewrite (tracker_returns_key key cf current Hk).
    destruct (force_two_digit_cases (ratio cf * 100)) as (Hint & Hnan & Hinf).
    destruct ((current <? 0) && (10 <? peak cf)).
    + destruct (int_cases (ratio cf * 100))
        as [(n & Hn & _ & Hi)|[(msg & _ & Hn & Hi)|(msg & _ & _ & Hi)]].
      * rewrite (Hint n Hn), Hi. split; split.
        -- intros [m Hm]. discriminate.
        -- intros [_ H]. discriminate.
        -- intros _ [_ H]. discriminate.
        -- intros _. eexists. reflexivity.
      * rewrite (Hnan Hn), Hi. split; split.
        -- intros [m Hm]. discriminate.
        -- intros [_ H]. discriminate.
        -- intros _ [_ H]. discriminate.
        -- intros _. eexists. reflexivity.
      * destruct (Hinf Hi) as [m Hm]. rewrite Hm, Hi. split; split.
        -- intros _. split; reflexivity.
        -- intros _. exists m. reflexivity.
        -- intros [r Hr]. discriminate.
        -- intros H. exfalso. apply H. split; reflexivity.
    + split; split.
      * intros [m Hm]. discriminate.
      * intros [H _]. discriminate.
      * intros _ [H _]. discriminate.
      * intros _. eexists. reflexivity.
  - intros H. unfold update_peak_tracker.
    now rewrite (proj2 (getitem_known64 cf key) H).
Qed.

(** A misspelt key, and the key ['diff'] with a ratio of 1e307. *)
Lemma tracker_raises_witness :
  ~ In "dif" ["total_sum"; "first_half_sum"; "second_half_sum"; "diff";
              "cumulative_total"; "peak"; "timestamp"; "ratio"] /\
  update_peak_tracker "dif" tracker64_after_peak
  = (tracker64_after_peak, inl (KeyError "dif")) /\
  In "diff" ["total_sum"; "first_half_sum"; "second_half_sum"; "diff";
             "cumulative_total"; "peak"; "timestamp"; "ratio"] /\
  getitem overflowing_features64 "diff" = inr (-1) /\
  exists msg, snd (update_peak_tracker "diff" overflowing_features64)
              = inl (OverflowError msg).
Proof.
  assert (H : ~ In "dif" ["total_sum"; "first_half_sum"; "second_half_sum";
                          "diff"; "cumulative_total"; "peak"; "timestamp";
                          "ratio"]).
  { simpl. intros H. repeat (destruct H as [H|H]; [discriminate|]).
    exact H. }
  assert (Hin : In "diff" ["total_sum"; "first_half_sum"; "second_half_sum";
                           "diff"; "cumulative_total"; "peak"; "timestamp";
                           "ratio"]) by (simpl; tauto).
  split; [exact H|].
  split; [exact (proj2 (tracker_raises "dif" tracker64_after_peak) H)|].
  split; [exact Hin|]. split; [reflexivity|].
  apply (proj1 (tracker_raises "diff" overflowing_features64) Hin (-1)
           eq_refl).
  split; vm_compute; reflexivity.
Defined.

End TrackerKeys64.

(** ** update_peak_tracker on any key *)

Section TrackerMore.
Import Py functions.
Local Open Scope string_scope.
Local Open Scope Q_scope.

(** X10. Whatever the key, the call writes nothing but [cumulative_total],
    [peak] and [ratio], and a peak that was not negative is not negative
    afterwards. *)
Theorem tracker_frame_and_peak (key : string) (cf : features) :
  let cf' := fst (update_peak_tracker key cf) in
  total_sum cf' = total_sum cf /\
  first_half_sum cf' = first_half_sum cf /\
  second_half_sum cf' = second_half_sum cf /\
  diff cf' = diff cf /\
  timestamp cf' = timestamp cf /\
  (0 <= peak cf -> 0 <= peak cf').
Proof.
  unfold update_peak_tracker.
  destruct (getitem cf key) as [e|current]; cbn [fst];
    [repeat (split; [reflexivity|]); auto|].
  destruct (Qltb current 0) eqn:Ec.
  - assert (Hmax : max current 0 = 0) by (unfold max; now rewrite Ec).
    rewrite Hmax.
    destruct (Qltb 10 (peak cf)); cbn [fst].
    + repeat (split; [reflexivity|]). intros _. cbn. discriminate.
    + cbn [peak cumulative_total set_peak set_cumulative_total set_ratio
           first_half_sum second_half_sum total_sum diff timestamp ratio].
      destruct (Qltb 0 current) eqn:Ep.
      * apply Qltb_lt in Ec. apply Qltb_lt in Ep. exfalso.
        exact (Qlt_irrefl _ (Qlt_trans _ _ _ Ep Ec)).
      * repeat (split; [reflexivity|]). intros _. cbn. discriminate.
  - cbn [peak cumulative_total set_peak set_cumulative_total set_ratio
         first_half_sum second_half_sum total_sum diff timestamp ratio].
    apply Qltb_ge in Ec.
    destruct (Qltb (peak cf) current) eqn:Ep.
    + destruct (negb (Qeq_bool (first_half_sum cf) 0));
        repeat (split; [reflexivity|]); intros _; exact Ec.
    + repeat (split; [reflexivity|]). intros H; exact H.
Qed.

Lemma tracker_frame_and_peak_witness :
  0 <= peak tracker_after_peak /\
  0 <= peak (fst (update_peak_tracker "diff" tracker_after_peak)) /\
  diff (fst (update_peak_tracker "diff" tracker_after_peak))
  = diff tracker_after_peak.
Proof.
  assert (H : 0 <= peak tracker_after_peak) by (vm_compute; discriminate).
  destruct (tracker_frame_and_peak "diff" tracker_after_peak)
    as (_ & _ & _ & Hd & _ & Hp).
  split; [exact H|]. split; [exact (Hp H)|exact Hd].
Defined.

(** X11. On a value that is not negative the call on ['diff'] returns
    [False], adds the value to [cumulative_total], lifts [peak] to the value
    when the value is larger and never lowers it, and records the ratio
    [second_half_sum / first_half_sum] (0 for a zero [first_half_sum]) only
    when the peak is lifted. *)
Theorem tracker_accumulates (cf : features) :
  0 <= diff cf ->
  let cf' := fst (update_peak_tracker "diff" cf) in
  snd (update_peak_tracker "diff" cf) = inr PyFalse /\
  cumulative_total cf' = cumulative_total cf + diff cf /\
  peak cf' == Qmax (peak cf) (diff cf) /\
  (diff cf <= peak cf -> peak cf' = peak cf /\ ratio cf' = ratio cf) /\
  (peak cf < diff cf ->
   peak cf' = diff cf /\
   (~ first_half_sum cf == 0 ->
    ratio cf' = second_half_sum cf / first_half_sum cf) /\
   (first_half_sum cf == 0 -> ratio cf' = 0)).
Proof.
  intros Hd. unfold update_peak_tracker.
  cbn [getitem String.eqb Ascii.eqb Bool.eqb].
  rewrite (proj2 (Qltb_ge _ _) Hd).
  cbn [peak cumulative_total set_peak set_cumulative_total set_ratio
       first_half_sum second_half_sum total_sum diff timestamp ratio].
  destruct (Qltb (peak cf) (diff cf)) eqn:Ep.
  - apply Qltb_lt in Ep.
    destruct (Qeq_bool (first_half_sum cf) 0) eqn:Ez; cbn;
      (split; [reflexivity|]); (split; [reflexivity|]);
      (split; [rewrite Q.max_r by (now apply Qlt_le_weak); reflexivity|]);
      (split; [intros Hle; exfalso; exact (Qlt_not_le _ _ Ep Hle)|]);
      intros _; (split; [reflexivity|]).
    + apply Qeq_bool_iff in Ez. split; [intros Hn; contradiction|reflexivity].
    + apply Qeq_bool_neq in Ez. split; [reflexivity|intros Hz; contradiction].
  - apply Qltb_ge in Ep. cbn.
    split; [reflexivity|]. split; [reflexivity|].
    split; [rewrite Q.max_l by exact Ep; reflexivity|].
    split; [intros _; split; reflexivity|].
    intros Hlt. exfalso. exact (Qlt_not_le _ _ Hlt Ep).
Qed.

Lemma tracker_accumulates_witness :
  0 <= diff (mkFeatures 0 100 (126 # 10) (874 # 10) 0 0 0 0) /\
  cumulative_total
    (fst (update_peak_tracker "diff"
            (mkFeatures 0 100 (126 # 10) (874 # 10) 0 0 0 0)))
  = 0 + (874 # 10).
Proof.
  assert (H : 0 <= diff (mkFeatures 0 100 (126 # 10) (874 # 10) 0 0 0 0))
    by discriminate.
  split; [exact H|].
  exact (proj1 (proj2 (tracker_accumulates
                         (mkFeatures 0 100 (126 # 10) (874 # 10) 0 0 0 0) H))).
Defined.

End TrackerMore.

(** ** extract_signal_features: the interior slice *)

Section ExtractMore.
Import Py functions.
Local Open Scope Q_scope.

(** X12. With a start index [s >= 0] and an end trim [t > 0] the interior
    slice is the samples without their first [s] and their last [t]
    elements; it is empty exactly when there are at most [s + t] samples,
    and then the four features are set to 0 and the rest of the dict is
    kept.  An end trim that is 0 or negative trims nothing. *)
Theorem subset_of_trims (samples : list Q) (s t : nat) (e : Z)
    (cf : features) :
  (0 < t)%nat -> (e <= 0)%Z ->
  let subset := subset_of samples (Z.of_nat s) (Z.of_nat t) in
  subset = firstn (List.length samples - t - s) (skipn s samples) /\
  (subset = [] <-> (List.length samples <= s + t)%nat) /\
  ((List.length samples <= s + t)%nat ->
   fst (extract_signal_features samples (Z.of_nat s) (Z.of_nat t) cf)
   = mkFeatures 0 0 0 0 (cumulative_total cf) (peak cf) (timestamp cf)
       (ratio cf)) /\
  subset_of samples (Z.of_nat s) e = skipn s samples.
Proof.
  intros Ht He subset.
  assert (Hsub : subset
                 = firstn (List.length samples - t - s) (skipn s samples)).
  { unfold subset, subset_of.
    replace (0 <? Z.of_nat t)%Z with true by (symmetry; apply Z.ltb_lt; lia).
    unfold slice, slice_bound.
    replace (Z.of_nat s <? 0)%Z with false by (symmetry; apply Z.ltb_ge; lia).
    replace (- Z.of_nat t <? 0)%Z with true by (symmetry; apply Z.ltb_lt; lia).
    destruct (Nat.le_gt_cases (List.length samples) s) as [Hle|Hgt].
    - rewrite (skipn_all2 samples) by lia.
      rewrite (skipn_all2 samples) by lia. now rewrite !firstn_nil.
    - f_equal; [lia|f_equal; lia]. }
  assert (Hempty : subset = [] <-> (List.length samples <= s + t)%nat).
  { rewrite Hsub. split; intros H.
    - apply (f_equal (@List.length Q)) in H.
      rewrite length_firstn, length_skipn in H. simpl in H. lia.
    - replace (List.length samples - t - s)%nat with 0%nat by lia.
      reflexivity. }
  split; [exact Hsub|]. split; [exact Hempty|]. split.
  - intros Hle. unfold extract_signal_features. fold subset.
    now rewrite (proj2 Hempty Hle).
  - unfold subset_of.
    replace (0 <? e)%Z with false by (symmetry; apply Z.ltb_ge; lia).
    unfold slice, slice_bound.
    replace (Z.of_nat s <? 0)%Z with false by (symmetry; apply Z.ltb_ge; lia).
    destruct (Nat.le_gt_cases (List.length samples) s) as [Hle|Hgt].
    + rewrite (skipn_all2 samples) by lia.
      rewrite (skipn_all2 samples) by lia. now rewrite firstn_nil.
    + replace (Z.to_nat _) with s by lia.
      apply firstn_all2. rewrite length_skipn. lia.
Qed.

(** Five samples with the default start index 4 and end trim 1. *)
Lemma subset_of_trims_witness :
  (0 < 1)%nat /\ (0 <= 0)%Z /\
  subset_of [1; 2; 3; 4; 5] 4 1 = [] /\
  subset_of [1; 2; 3; 4; 5] 4 0 = [5].
Proof.
  split; [lia|]. split; [lia|].
  destruct (subset_of_trims [1; 2; 3; 4; 5] 4 1 0 current_features_init
              (Nat.lt_0_succ 0) (Z.le_refl 0)) as (H1 & _ & _ & H2).
  split; [exact H1|exact H2].
Defined.

(** X13. On a curve of 25 samples read with the default arguments, as the
    acquisition loop reads it, the slice is samples 4..23; the leading
    feature is the mean of samples 4..13, the trailing feature the mean of
    samples 18..23, the two windows do not meet, and [total_sum] is the sum
    of the twenty. *)
Theorem extract_default_windows (samples : list Q) (cf : features) :
  List.length samples = 25%nat ->
  let cf' := fst (extract_signal_features samples default_start_index
                    default_end_trim cf) in
  total_sum cf' = sum (firstn 20 (skipn 4 samples)) /\
  first_half_sum cf' = spec.mean (firstn 10 (skipn 4 samples)) /\
  second_half_sum cf' = spec.mean (firstn 6 (skipn 18 samples)) /\
  diff cf' = first_half_sum cf' - second_half_sum cf'.
Proof.
  intros Hlen.
  do 25 (destruct samples as [|? samples]; [discriminate|]).
  destruct samples; [|discriminate].
  repeat split.
Qed.

Lemma extract_default_windows_witness :
  List.length peak_curve = 25%nat /\
  first_half_sum (fst (extract_signal_features peak_curve default_start_index
                         default_end_trim current_features_init))
  = spec.mean (repeat 100 10).
Proof.
  split; [reflexivity|].
  exact (proj1 (proj2 (extract_default_windows peak_curve
                         current_features_init eq_refl))).
Defined.

End ExtractMore.

(** ** force_two_digit and the WAV player *)

Section TwoDigits.
Import Py functions.
Local Open Scope Q_scope.

Lemma int_below_one (v : Q) : v < 1 -> (int v <= 0)%Z.
Proof.
  destruct v as [num den]. unfold Qlt, int. simpl. intros H.
  rewrite Z.mul_1_r in H.
  destruct (Z.le_gt_cases 0 num) as [Hn|Hn].
  - rewrite Z.quot_small by lia. lia.
  - replace num with (- - num)%Z by lia.
    rewrite Z.quot_opp_l by lia.
    pose proof (Z.quot_pos (- num) (Zpos den)). lia.
Qed.

Lemma int_from_99 (v : Q) : 99 <= v -> (99 <= int v)%Z.
Proof.
  destruct v as [num den]. unfold Qle, int. simpl. intros H.
  apply Z.quot_le_lower_bound; lia.
Qed.

(** A two-digit code is taken by the player as it is. *)
Lemma two_digits_accepted (n : Z) :
  (0 <= n <= 99)%Z ->
  zfill2 (spec.two_digits n) = spec.two_digits n /\
  String.length (spec.two_digits n) = 2%nat /\
  isdigit (spec.two_digits n) = true.
Proof.
  intros Hn.
  assert (Hall : forallb
                   (fun k =>
                      let s := spec.two_digits (Z.of_nat k) in
                      String.eqb (zfill2 s) s && (String.length s =? 2)%nat
                      && isdigit s)%bool
                   (seq 0 100) = true) by (vm_compute; reflexivity).
  rewrite forallb_forall in Hall.
  specialize (Hall (Z.to_nat n)).
  rewrite Z2Nat.id in Hall by lia.
  assert (Hin : In (Z.to_nat n) (seq 0 100)) by (apply in_seq; lia).
  apply Hall in Hin. cbv zeta in Hin.
  apply andb_true_iff in Hin. destruct Hin as [Hin H3].
  apply andb_true_iff in Hin. destruct Hin as [H1 H2].
  split; [now apply String.eqb_eq|]. split; [now apply Nat.eqb_eq|exact H3].
Qed.

Lemma int_of_integer (q : Q) (n : Z) : q == inject_Z n -> int q = n.
Proof.
  destruct q as [num den]. unfold Qeq, int. simpl. intros H.
  rewrite Z.mul_1_r in H. subst num. apply Z.quot_mul. lia.
Qed.

(** X14. [force_two_digit] on a float raises [OverflowError] exactly on
    an infinity and otherwise gives two decimal digits: "00" on NaN, and
    on a finite float the integer part of its value clamped to 0..99.
    Anything below 1 gives "00", anything from 99 on gives "99", and a
    whole number in 0..99 gives its own two digits. *)
Theorem force_two_digit_total (v : float) :
  ((exists msg, functions64.force_two_digit v
                = inl (Py64.OverflowError msg)) <->
   Py64.isinf v = true) /\
  (Py64.isinf v = false ->
   exists n, (0 <= n <= 99)%Z /\
     functions64.force_two_digit v = inr (spec.two_digits n) /\
     String.length (spec.two_digits n) = 2%nat /\
     isdigit (spec.two_digits n) = true) /\
  (Py64.isnan v = true -> functions64.force_two_digit v = inr "00"%string) /\
  (forall q, Py64.value v = Some q ->
     functions64.force_two_digit v
     = inr (spec.two_digits (Z.max 0 (Z.min 99 (int q)))) /\
     (q < 1 -> functions64.force_two_digit v = inr "00"%string) /\
     (99 <= q -> functions64.force_two_digit v = inr "99"%string) /\
     (forall k, (0 <= k <= 99)%Z -> q == inject_Z k ->
                functions64.force_two_digit v = inr (spec.two_digits k))).
Proof.
  destruct (force_two_digit_cases v) as (Hint & Hnan & Hinf).
  split; [|split; [|split]].
  - split; [|exact Hinf].
    intros [msg Hmsg].
    destruct (int_cases v)
      as [(n & Hn & _)|[(m & _ & Hn & _)|(m & _ & _ & Hi)]].
    + rewrite (Hint n Hn) in Hmsg. discriminate.
    + rewrite (Hnan Hn) in Hmsg. discriminate.
    + exact Hi.
  - intros Hfin.
    destruct (int_cases v)
      as [(n & Hn & _)|[(m & _ & Hn & _)|(m & _ & _ & Hi)]].
    + exists (Z.max 0 (Z.min 99 n)).
      assert (Hr : (0 <= Z.max 0 (Z.min 99 n) <= 99)%Z) by lia.
      destruct (two_digits_accepted _ Hr) as (_ & Hl & Hd).
      split; [exact Hr|]. split; [exact (Hint n Hn)|].
      split; [exact Hl|exact Hd].
    + exists 0%Z. split; [lia|]. split; [exact (Hnan Hn)|].
      split; reflexivity.
    + congruence.
  - exact Hnan.
  - intros q Hq. pose proof (int_value v q Hq) as Hn.
    rewrite (Hint _ Hn). split; [reflexivity|]. split; [|split].
    + intros H. apply int_below_one in H.
      replace (Z.max 0 (Z.min 99 (int q))) with 0%Z by lia. reflexivity.
    + intros H. apply int_from_99 in H.
      replace (Z.max 0 (Z.min 99 (int q))) with 99%Z by lia. reflexivity.
    + intros k Hk Hqk. rewrite (int_of_integer q k Hqk).
      do 2 f_equal. lia.
Qed.

(** An infinity, NaN, and the floats 0.5, 123.5 and 7.0. *)
Lemma force_two_digit_total_witness :
  Py64.isinf infinity = true /\
  (exists msg, functions64.force_two_digit infinity
               = inl (Py64.OverflowError msg)) /\
  Py64.isnan nan = true /\
  functions64.force_two_digit nan = inr "00"%string /\
  (exists q, Py64.value 0.5%float = Some q /\ q < 1 /\
             functions64.force_two_digit 0.5%float = inr "00"%string) /\
  (exists q, Py64.value 123.5%float = Some q /\ 99 <= q /\
             functions64.force_two_digit 123.5%float = inr "99"%string) /\
  (exists q, Py64.value 7%float = Some q /\ q == inject_Z 7 /\
             functions64.force_two_digit 7%float = inr "07"%string).
Proof.
  assert (Hi : Py64.isinf infinity = true) by (vm_compute; reflexivity).
  assert (Hn : Py64.isnan nan = true) by (vm_compute; reflexivity).
  split; [exact Hi|].
  split; [exact (proj2 (proj1 (force_two_digit_total infinity)) Hi)|].
  split; [exact Hn|].
  split; [exact (proj1 (proj2 (proj2 (force_two_digit_total nan))) Hn)|].
  split; [|split].
  - destruct (Py64.value 0.5%float) as [q|] eqn:Hq;
      [|vm_compute in Hq; discriminate].
    assert (Hlt : q < 1).
    { vm_compute in Hq. injection Hq as <-. reflexivity. }
    exists q. split; [reflexivity|]. split; [exact Hlt|].
    exact (proj1 (proj2 (proj2 (proj2 (proj2
             (force_two_digit_total 0.5%float))) q Hq)) Hlt).
  - destruct (Py64.value 123.5%float) as [q|] eqn:Hq;
      [|vm_compute in Hq; discriminate].
    assert (Hge : 99 <= q).
    { vm_compute in Hq. injection Hq as <-. discriminate. }
    exists q. split; [reflexivity|]. split; [exact Hge|].
    exact (proj1 (proj2 (proj2 (proj2 (proj2 (proj2
             (force_two_digit_total 123.5%float))) q Hq))) Hge).
  - destruct (Py64.value 7%float) as [q|] eqn:Hq;
      [|vm_compute in Hq; discriminate].
    assert (H7 : q == inject_Z 7).
    { vm_compute in Hq. injection Hq as <-. reflexivity. }
    assert (Hk : (0 <= 7 <= 99)%Z) by lia.
    exists q. split; [reflexivity|]. split; [exact H7|].
    exact (proj2 (proj2 (proj2 (proj2 (proj2 (proj2
             (force_two_digit_total 7%float))) q Hq))) 7%Z Hk H7).
Defined.

(** X15. A running player takes every code [force_two_digit] produces:
    [say_number] returns [True] and puts exactly that code on the queue. *)
Theorem say_number_takes_trigger_code (v : Q) (p : wav_player.WavPlayer) :
  wav_player.running p = true ->
  wav_player.say_number (wav_player.Str (force_two_digit v)) p
  = (wav_player.mkPlayer (wav_player.wav_path p)
       (wav_player.queue p ++ [Some (force_two_digit v)])
       true (wav_player.worker_thread p),
     true).
Proof.
  intros Hrun. unfold wav_player.say_number. rewrite Hrun.
  cbn [negb wav_player.str].
  rewrite force_two_digit_spec.
  assert (Hn : (0 <= Z.max 0 (Z.min 99 (int v)) <= 99)%Z) by lia.
  destruct (two_digits_accepted _ Hn) as (Hz & Hl & Hd).
  rewrite Hz, Hl, Hd. reflexivity.
Qed.

Lemma say_number_takes_trigger_code_witness :
  wav_player.running (wav_player.WavPlayer_start
                        (wav_player.WavPlayer_init "wavs")) = true /\
  snd (wav_player.say_number (wav_player.Str (force_two_digit (126 # 10)))
         (wav_player.WavPlayer_start (wav_player.WavPlayer_init "wavs")))
  = true.
Proof.
  split; [reflexivity|].
  rewrite (say_number_takes_trigger_code (126 # 10)
             (wav_player.WavPlayer_start (wav_player.WavPlayer_init "wavs"))
             eq_refl).
  reflexivity.
Defined.

End TwoDigits.

Section SayNumber.
Import Py.
Import wav_player.
Local Open Scope string_scope.

Ltac digit_cases d := destruct d as [|d|d|d|d|d|d|d|d|d|d].

Lemma length_string_of_uint (d : Decimal.uint) :
  String.length (NilEmpty.string_of_uint d) = Decimal.nb_digits d.
Proof.
  induction d; simpl; congruence.
Qed.

(** A decimal numeral of at most two digits denotes at most 99. *)
Lemma short_numeral_small (d : Decimal.uint) :
  (Decimal.nb_digits d <= 2)%nat -> (Pos.of_uint d <= 99)%N.
Proof.
  intros H.
  digit_cases d; [vm_compute; discriminate|..];
    (digit_cases d; [vm_compute; discriminate|..];
     (digit_cases d; [vm_compute; discriminate|simpl in H; lia..])).
Qed.

Lemma zfill2_long (s : string) :
  (2 <= String.length s)%nat -> zfill2 s = s.
Proof.
  destruct s as [|c [|c' s]]; simpl; intros H; try lia. reflexivity.
Qed.

Lemma str_int_large (q : positive) :
  (100 <= Zpos q)%Z -> (3 <= String.length (str_int (Zpos q)))%nat.
Proof.
  intros H. unfold str_int. simpl.
  pose proof (DecimalPos.Unsigned.to_uint_nonnil q) as Hnn.
  pose proof (DecimalPos.Unsigned.of_to q) as Hof.
  destruct (Nat.le_gt_cases (Decimal.nb_digits (Pos.to_uint q)) 2)
    as [Hle|Hgt].
  - apply short_numeral_small in Hle. rewrite Hof in Hle. lia.
  - destruct (Pos.to_uint q) eqn:E; [contradiction|..];
      simpl in Hgt |- *; rewrite length_string_of_uint; lia.
Qed.

Lemma str_int_small (n : Z) :
  (0 <= n <= 99)%Z -> zfill2 (str_int n) = spec.two_digits n.
Proof.
  intros Hn.
  assert (Hall : forallb (fun k => String.eqb (zfill2 (str_int (Z.of_nat k)))
                                     (spec.two_digits (Z.of_nat k)))
                   (seq 0 100) = true) by (vm_compute; reflexivity).
  rewrite forallb_forall in Hall.
  specialize (Hall (Z.to_nat n)).
  rewrite Z2Nat.id in Hall by lia.
  apply String.eqb_eq, Hall, in_seq. lia.
Qed.

(** [say_number] on an int, as one equation. *)
Lemma say_number_on_int (n : Z) (p : WavPlayer) :
  say_number (Int n) p =
    if (running p && (0 <=? n)%Z && (n <=? 99)%Z)%bool then
      (mkPlayer (wav_path p) (queue p ++ [Some (spec.two_digits n)]) true
         (worker_thread p), true)
    else (p, false).
Proof.
  unfold say_number. destruct (running p); [|reflexivity].
  cbn [negb andb str].
  destruct (Z.leb_spec 0 n) as [H0|H0]; cbn [andb].
  - destruct (Z.leb_spec n 99) as [H99|H99].
    + rewrite str_int_small by lia.
      destruct (two_digits_accepted n (conj H0 H99)) as (_ & Hl & Hd).
      now rewrite Hl, Hd.
    + destruct n as [|q|q]; try lia.
      pose proof (str_int_large q ltac:(lia)) as Hlen.
      rewrite zfill2_long by lia.
      replace (String.length (str_int (Z.pos q)) =? 2)%nat with false
        by (symmetry; apply Nat.eqb_neq; lia).
      reflexivity.
  - destruct n as [|q|q]; try lia.
    unfold str_int. simpl.
    destruct (NilZero.string_of_uint (Pos.to_uint q)) as [|c s]; simpl.
    + reflexivity.
    + now rewrite orb_true_r.
Qed.

(** X16. [say_number] on an int: the number is accepted exactly when the
    player is running and the number is in 0..99; its two decimal digits
    are then put on the queue.  Otherwise the call returns [False] and the
    player is as before. *)
Theorem say_number_int (n : Z) (p : WavPlayer) :
  (snd (say_number (Int n) p) = true <->
   running p = true /\ (0 <= n <= 99)%Z) /\
  (running p = true -> (0 <= n <= 99)%Z ->
   say_number (Int n) p
   = (mkPlayer (wav_path p) (queue p ++ [Some (spec.two_digits n)]) true
        (worker_thread p), true)) /\
  (snd (say_number (Int n) p) = false -> fst (say_number (Int n) p) = p).
Proof.
  rewrite say_number_on_int.
  destruct (running p); destruct (Z.leb_spec 0 n);
    destruct (Z.leb_spec n 99); cbn [andb fst snd];
    (split; [split; [intros Hs|intros [Hr Hn]]
            |split; [intros Hr Hn|intros Hs]]);
    try discriminate; try lia; try reflexivity;
    split; try reflexivity; lia.
Qed.

Lemma say_number_int_witness :
  running (WavPlayer_start (WavPlayer_init "wavs")) = true /\
  (0 <= 7 <= 99)%Z /\
  say_number (Int 7) (WavPlayer_start (WavPlayer_init "wavs"))
  = (mkPlayer "wavs" [Some "07"] true true, true).
Proof.
  assert (H : (0 <= 7 <= 99)%Z) by lia.
  split; [reflexivity|]. split; [exact H|].
  exact (proj1 (proj2 (say_number_int 7
                         (WavPlayer_start (WavPlayer_init "wavs"))))
           eq_refl H).
Defined.

End SayNumber.

Section PlayerModule.
Import Py.
Import wav_player.
Local Open Scope string_scope.

(** X17. Through the module functions the global player is always absent
    or running, so [say] on an int, which starts a player when there is
    none, returns [True] exactly for the numbers 0..99 and leaves a running
    player behind; [stop] leaves none. *)
Theorem module_say_int (n : Z) (path : string) (player : option WavPlayer) :
  player_running player ->
  snd (say (Int n) player) = ((0 <=? n)%Z && (n <=? 99)%Z)%bool /\
  (exists p, fst (say (Int n) player) = Some p /\ running p = true) /\
  player_running (init path player) /\
  fst (stop player) = None.
Proof.
  intros Hrun. unfold say.
  assert (Hinit : forall pth, exists p,
             init pth player = Some p /\ running p = true).
  { intros pth. destruct player as [p|]; simpl.
    - exists p. split; [reflexivity|exact Hrun].
    - eexists. split; reflexivity. }
  destruct (Hinit "wavs") as (p & -> & Hp).
  rewrite say_number_on_int, Hp. cbn [andb].
  split; [|split; [|split]].
  - destruct ((0 <=? n)%Z && (n <=? 99)%Z)%bool; reflexivity.
  - destruct ((0 <=? n)%Z && (n <=? 99)%Z)%bool; eexists;
      (split; [reflexivity|]); [reflexivity|exact Hp].
  - destruct (Hinit path) as (p' & -> & Hp'). exact Hp'.
  - destruct player; reflexivity.
Qed.

Lemma module_say_int_witness :
  player_running None /\
  say (Int 7) None
  = (Some (mkPlayer "wavs" [Some "07"] true true), true) /\
  snd (say (Int 100) (fst (say (Int 7) None))) = false.
Proof.
  split; [exact I|]. split; [reflexivity|].
  assert (H : player_running (fst (say (Int 7) None))) by reflexivity.
  rewrite (proj1 (module_say_int 100 "wavs" (fst (say (Int 7) None)) H)).
  reflexivity.
Defined.

End PlayerModule.

(** ** sound.py: volume, start and stop, the mapping *)

Section SoundMore.
Import Py sound.
Local Open Scope Q_scope.

(** X18. [set_volume] stores the volume clamped to [0, 1]: a level in
    [0, 1] is stored as it is, a negative one as 0, one above 1 as 1;
    setting the stored volume again changes nothing, and the frequency,
    the phase and the playing state are not touched. *)
Theorem set_volume_clamps (vol : Q) (g : globals) :
  let g' := set_volume vol g in
  0 <= current_volume g' <= 1 /\
  (0 <= vol <= 1 -> current_volume g' == vol) /\
  (vol < 0 -> current_volume g' = 0) /\
  (1 < vol -> current_volume g' = 1) /\
  set_volume (current_volume g') g' = g' /\
  current_frequency g' = current_frequency g /\
  phase g' = phase g /\ is_playing g' = is_playing g.
Proof.
  cbv zeta. unfold set_volume. cbn [current_volume current_frequency phase
                                    is_playing stream].
  unfold max, min.
  destruct (Qltb vol 1) eqn:E1.
  - apply Qltb_lt in E1.
    destruct (Qltb 0 vol) eqn:E0.
    + apply Qltb_lt in E0.
      rewrite (proj2 (Qltb_lt _ _) E1), (proj2 (Qltb_lt _ _) E0).
      repeat split; try reflexivity; try Lqa.lra.
    + apply Qltb_ge in E0.
      replace (Qltb 0 1) with true by reflexivity.
      replace (Qltb 0 0) with false by reflexivity.
      repeat split; try reflexivity; try Lqa.lra; try discriminate.
  - apply Qltb_ge in E1.
    replace (Qltb 0 1) with true by reflexivity.
    replace (Qltb 1 1) with false by reflexivity.
    replace (Qltb 0 1) with true by reflexivity.
    repeat split; try reflexivity; try Lqa.lra; try discriminate.
Qed.

Lemma set_volume_clamps_witness :
  0 <= (3 # 10) <= 1 /\ (-2) < 0 /\ 1 < 5 /\
  current_volume (set_volume (3 # 10) globals_init) == 3 # 10 /\
  current_volume (set_volume (-2) globals_init) = 0 /\
  current_volume (set_volume 5 globals_init) = 1.
Proof.
  assert (H1 : 0 <= (3 # 10) <= 1) by (split; discriminate).
  assert (H2 : (-2) < 0) by reflexivity.
  assert (H3 : 1 < 5) by reflexivity.
  split; [exact H1|]. split; [exact H2|]. split; [exact H3|].
  destruct (set_volume_clamps (3 # 10) globals_init) as (_ & Ha & _).
  destruct (set_volume_clamps (-2) globals_init) as (_ & _ & Hb & _).
  destruct (set_volume_clamps 5 globals_init) as (_ & _ & _ & Hc & _).
  split; [exact (Ha H1)|]. split; [exact (Hb H2)|exact (Hc H3)].
Defined.

(** X19. Starting and stopping the tone: [start_tone] on a playing tone
    does nothing (the phase is not reset), so starting twice is starting
    once; [stop_tone] on a silent tone does nothing; a stop after a start
    leaves the tone silent with phase 0; and neither call changes the
    frequency or the volume. *)
Theorem start_stop_tone (g : globals) :
  (is_playing g = true -> start_tone g = (g, [])) /\
  (is_playing g = false -> stop_tone g = (g, [])) /\
  fst (start_tone (fst (start_tone g))) = fst (start_tone g) /\
  is_playing (fst (start_tone g)) = true /\
  is_playing (fst (stop_tone g)) = false /\
  (is_playing g = false ->
   fst (stop_tone (fst (start_tone g)))
   = mkGlobals (current_frequency g) (current_volume g) false false 0%R) /\
  current_frequency (fst (start_tone g)) = current_frequency g /\
  current_volume (fst (start_tone g)) = current_volume g /\
  current_frequency (fst (stop_tone g)) = current_frequency g /\
  current_volume (fst (stop_tone g)) = current_volume g.
Proof.
  unfold start_tone, stop_tone.
  destruct (is_playing g) eqn:E; cbn; rewrite ?E; cbn;
    repeat split; try reflexivity; try discriminate; try assumption.
Qed.

Lemma start_stop_tone_witness :
  is_playing globals_init = false /\
  is_playing (fst (start_tone globals_init)) = true /\
  fst (stop_tone (fst (start_tone globals_init)))
  = mkGlobals 440 (3 # 10) false false 0%R.
Proof.
  split; [reflexivity|].
  destruct (start_stop_tone globals_init)
    as (_ & _ & _ & Hp & _ & Hs & _).
  split; [exact Hp|exact (Hs eq_refl)].
Defined.

(** X20. For a strength that is not negative [soundscape] stays inside its
    ranges: the volume lies in [0.05, 0.7] and the frequency in
    [400, 1000]; from strength 100 on both sit at the upper end; and a
    stronger signal never gives a lower volume or frequency. *)
Theorem soundscape_ranges (strength strength' shape shape' : Q)
    (g g' : globals) :
  0 <= strength -> strength <= strength' ->
  let r := fst (soundscape strength shape g) in
  let r' := fst (soundscape strength' shape' g') in
  min_volume <= current_volume r <= max_volume /\
  min_freq <= current_frequency r <= max_freq /\
  (100 <= strength ->
   current_volume r == max_volume /\ current_frequency r == max_freq) /\
  current_volume r <= current_volume r' /\
  current_frequency r <= current_frequency r'.
Proof.
  intros H0 Hle.
  assert (Hf : forall s sh h,
             current_frequency (fst (soundscape s sh h))
             = min_freq + (max_freq - min_freq)
                          * min 1 (s / max_expected_strength)).
  { intros. unfold soundscape, start_tone. cbn [is_playing].
    destruct (is_playing h); reflexivity. }
  assert (Hv : forall s sh h,
             current_volume (fst (soundscape s sh h))
             = min_volume + (max_volume - min_volume)
                            * min 1 (s / max_expected_strength)).
  { intros. unfold soundscape, start_tone. cbn [is_playing].
    destruct (is_playing h); reflexivity. }
  cbv zeta. rewrite !Hf, !Hv.
  unfold min_volume, max_volume, min_freq, max_freq, max_expected_strength.
  assert (Hd : forall s, s / 100 == s * (1 # 100)) by (intros; field).
  assert (Hm : forall s, 0 <= s -> 0 <= min 1 (s / 100) <= 1).
  { intros s Hs. unfold min. destruct (Qltb (s / 100) 1) eqn:E.
    - apply Qltb_lt in E. rewrite Hd in *. split; Lqa.lra.
    - split; discriminate. }
  assert (Hmono : min 1 (strength / 100) <= min 1 (strength' / 100)).
  { unfold min.
    destruct (Qltb (strength / 100) 1) eqn:E;
      destruct (Qltb (strength' / 100) 1) eqn:E'.
    - rewrite !Hd. Lqa.lra.
    - apply Qltb_lt in E. now apply Qlt_le_weak.
    - apply Qltb_ge in E. apply Qltb_lt in E'. rewrite Hd in *. Lqa.lra.
    - apply Qle_refl. }
  destruct (Hm strength H0) as [Hlo Hhi].
  split; [split; Lqa.lra|]. split; [split; Lqa.lra|]. split.
  - intros H100.
    assert (E : min 1 (strength / 100) = 1).
    { unfold min. replace (Qltb (strength / 100) 1) with false; [reflexivity|].
      symmetry. apply Qltb_ge. rewrite Hd. Lqa.lra. }
    rewrite E. split; reflexivity.
  - split; Lqa.lra.
Qed.

Lemma soundscape_ranges_witness :
  0 <= 50 /\ 50 <= 250 /\ 100 <= 250 /\
  current_volume (fst (soundscape 50 1 globals_init))
  <= current_volume (fst (soundscape 250 1 globals_init)) /\
  current_frequency (fst (soundscape 250 1 globals_init)) == max_freq.
Proof.
  assert (H1 : 0 <= 50) by discriminate.
  assert (H2 : 50 <= 250) by discriminate.
  assert (H3 : 100 <= 250) by discriminate.
  assert (H4 : 0 <= 250) by discriminate.
  assert (H5 : 250 <= 250) by discriminate.
  split; [exact H1|]. split; [exact H2|]. split; [exact H3|].
  destruct (soundscape_ranges 50 250 1 1 globals_init globals_init H1 H2)
    as (_ & _ & _ & Hv & _).
  destruct (soundscape_ranges 250 250 1 1 globals_init globals_init H4 H5)
    as (_ & _ & Hs & _).
  split; [exact Hv|exact (proj2 (Hs H3))].
Defined.

End SoundMore.

(** ** The stream callback: the samples *)

Section Waveform.
Import sound.
Local Open Scope R_scope.




End Waveform.

(** ** The acquisition loop: what is stored *)

Section LoopStore.
Import Py functions serial_reader.
Local Open Scope Q_scope.

(** An invariant of every line is an invariant of the loop. *)
Lemma read_loop_invariant (P : world -> Prop) :
  (forall now parsed w, P w -> P (read_line now parsed w)) ->
  forall lines w, P w -> P (_read_loop lines w).
Proof.
  intros Hstep. unfold _read_loop.
  induction lines as [|l lines IH]; intros w Hw; simpl; [exact Hw|].
  apply IH, Hstep, Hw.
Qed.

(** A line stores nothing, or stores one well-formed curve stamped with
    the time of the line. *)
Lemma read_line_store (now : Q) (parsed : exn + list Q) (w : world) :
  (data_buffer (read_line now parsed w) = data_buffer w /\
   latest_curve (read_line now parsed w) = latest_curve w) \/
  (exists c,
     curve_ok c /\ curve_timestamp c = now /\ parsed = inr (curve_values c) /\
     data_buffer (read_line now parsed w) = deque.append (data_buffer w) c /\
     latest_curve (read_line now parsed w) = Some c).
Proof.
  unfold read_line.
  destruct parsed as [e|values]; [left; destruct e; split; reflexivity|].
  destruct (Nat.eqb_spec (List.length values) CURVE_SAMPLE_SIZE) as [Hv|Hv];
    [|left; split; reflexivity].
  destruct (update (long_average_curve w) values) as [a [e|out]];
    [left; destruct e; split; reflexivity|].
  cbn [fast_average_curve set_long].
  destruct (update (fast_average_curve w) values) as [b [e|out']];
    [left; destruct e; split; reflexivity|].
  cbn [enable_sound set_fast set_long].
  right. exists (mkCurve now values curve_times).
  split; [split; [exact Hv|reflexivity]|].
  split; [reflexivity|]. split; [reflexivity|].
  destruct (enable_sound w); cbn [store_curve data_buffer latest_curve];
    [|split; reflexivity].
  match goal with
  | |- context [sound_update ?x] =>
      destruct (sound_update_outcome x) as (_ & _ & _ & Hd & _)
  end.
  rewrite Hd. split; reflexivity.
Qed.

Lemma append_newest (d : deque.t curve_data) (c : curve_data) :
  buffer_ok d -> exists older, deque.items (deque.append d c) = older ++ [c].
Proof.
  intros [Hm Hl]. unfold deque.append. rewrite Hm.
  destruct (TIME_BUFFER_SIZE <? List.length (deque.items d ++ [c]))%nat eqn:E;
    cbn [deque.items]; [|eexists; reflexivity].
  apply Nat.ltb_lt in E. rewrite length_app in E. simpl in E.
  destruct (deque.items d) as [|x r];
    [simpl in E; unfold TIME_BUFFER_SIZE in E; lia|].
  exists r. reflexivity.
Qed.

Lemma append_curves_ok (d : deque.t curve_data) (c : curve_data) :
  Forall curve_ok (deque.items d) -> curve_ok c ->
  Forall curve_ok (deque.items (deque.append d c)).
Proof.
  intros Hd Hc.
  assert (Hl : Forall curve_ok (deque.items d ++ [c])).
  { apply Forall_app. split; [exact Hd|]. constructor; [exact Hc|constructor]. }
  unfold deque.append.
  destruct (deque.maxlen d) as [m|]; [|exact Hl].
  destruct (m <? List.length (deque.items d ++ [c]))%nat; cbn [deque.items];
    [|exact Hl].
  destruct (deque.items d ++ [c]); [constructor|].
  now inversion Hl.
Qed.

(** X25. A line that does not parse, or that does not have 25 values,
    is dropped: the loop prints one line and nothing else changes, neither
    the filters nor the features, the buffer, the latest curve or the
    oscillator. *)
Theorem read_line_drops (now : Q) (parsed : exn + list Q) (w : world) :
  match parsed with
  | inl _ => True
  | inr values => List.length values <> CURVE_SAMPLE_SIZE
  end ->
  let w' := read_line now parsed w in
  (exists line, stdout w' = stdout w ++ [line]) /\
  long_average_curve w' = long_average_curve w /\
  fast_average_curve w' = fast_average_curve w /\
  current_features w' = current_features w /\
  audio w' = audio w /\
  data_buffer w' = data_buffer w /\
  latest_curve w' = latest_curve w.
Proof.
  intros H. unfold read_line.
  destruct parsed as [e|values].
  - destruct e; cbn; (split; [eexists; reflexivity|]); repeat split.
  - rewrite (proj2 (Nat.eqb_neq _ _) H). cbn.
    split; [eexists; reflexivity|]. repeat split.
Qed.

Lemma read_line_drops_witness :
  List.length [1; 2; 3] <> CURVE_SAMPLE_SIZE /\
  stdout (read_line 0 (inr [1; 2; 3]) world_init)
  = [WarningExpected 25 3] /\
  data_buffer (read_line 0 (inr [1; 2; 3]) world_init)
  = data_buffer world_init.
Proof.
  assert (H : List.length [1; 2; 3] <> CURVE_SAMPLE_SIZE)
    by (unfold CURVE_SAMPLE_SIZE; simpl; lia).
  split; [exact H|]. split; [reflexivity|].
  exact (proj1 (proj2 (proj2 (proj2 (proj2 (proj2
           (read_line_drops 0 (inr [1; 2; 3]) world_init H))))))).
Defined.

(** X26. Whatever lines arrive after start-up, the latest curve is the
    newest curve of the buffer, and there is no latest curve only while the
    buffer is empty. *)
Theorem read_loop_latest_is_newest (lines : list (Q * (exn + list Q))) :
  latest_is_newest (_read_loop lines world_init).
Proof.
  enough (H : buffer_ok (data_buffer (_read_loop lines world_init)) /\
              latest_is_newest (_read_loop lines world_init))
    by exact (proj2 H).
  apply (read_loop_invariant
           (fun w => buffer_ok (data_buffer w) /\ latest_is_newest w)).
  - intros now parsed w [Hb Hl].
    unfold latest_is_newest, get_latest, get_buffer in *.
    destruct (read_line_store now parsed w)
      as [[-> ->]|(c & _ & _ & _ & -> & ->)].
    + split; assumption.
    + split; [now apply append_buffer_ok|now apply append_newest].
  - split; [split; [reflexivity|simpl; lia]|reflexivity].
Qed.

(** X27. Whatever lines arrive after start-up, every curve in the buffer
    has 25 values and the sample times 0, 3, ..., 72, and the averages read
    back by [get_average] have 25 entries each. *)
Theorem read_loop_curves_ok (lines : list (Q * (exn + list Q))) :
  let w := _read_loop lines world_init in
  Forall curve_ok (get_buffer w) /\
  List.length (avg_values (get_averages w)) = CURVE_SAMPLE_SIZE /\
  List.length (avg_signal (get_averages w)) = CURVE_SAMPLE_SIZE /\
  avg_times_us (get_averages w) = curve_times.
Proof.
  cbv zeta. split.
  - apply (read_loop_invariant
             (fun w => Forall curve_ok (get_buffer w))); [|constructor].
    intros now parsed w Hw. unfold get_buffer in *.
    destruct (read_line_store now parsed w)
      as [[-> _]|(c & Hc & _ & _ & -> & _)];
      [exact Hw|now apply append_curves_ok].
  - destruct (read_loop_preserves lines world_init)
      as ([_ Hl] & [_ Hf] & _); [apply init_filter_ok..|].
    split; [exact Hl|]. split; [exact Hf|reflexivity].
Qed.

(** X28. After [clear_buffer] the next valid line starts afresh: the
    buffer holds that curve alone, it is the latest curve, and both
    averages are the line itself. *)
Theorem clear_buffer_then_line (now : Q) (values : list Q) (w : world) :
  List.length values = CURVE_SAMPLE_SIZE ->
  filter_ok CURVE_SAMPLE_SIZE (long_average_curve w) ->
  filter_ok CURVE_SAMPLE_SIZE (fast_average_curve w) ->
  buffer_ok (data_buffer w) ->
  get_buffer (clear_buffer w) = [] /\
  get_latest (clear_buffer w) = None /\
  let w' := read_line now (inr values) (clear_buffer w) in
  (exists c, curve_values c = values /\
             get_buffer w' = [c] /\ get_latest w' = Some c) /\
  average (long_average_curve w') = values /\
  average (fast_average_curve w') = values.
Proof.
  intros Hv Hl Hf [Hm _].
  split; [reflexivity|]. split; [reflexivity|].
  destruct (read_line_valid now values (clear_buffer w) Hv
              (reset_filter_ok _ _ Hl) (reset_filter_ok _ _ Hf))
    as (a & b & c & _ & _ & Ha & Hb & Hc & Hw).
  cbv zeta. rewrite Hw.
  assert (Hupd : forall f, filter_ok CURVE_SAMPLE_SIZE f ->
                           average (fst (update (reset f) values)) = values).
  { intros f [Hs _]. unfold update, reset. simpl.
    now rewrite Hs, (proj2 (Nat.eqb_eq _ _) Hv). }
  assert (Haa : average a = values).
  { rewrite <- Ha. cbn [clear_buffer long_average_curve]. now apply Hupd. }
  assert (Hbb : average b = values).
  { rewrite <- Hb. cbn [clear_buffer fast_average_curve]. now apply Hupd. }
  set (x := set_fast b (set_long a (clear_buffer w))).
  set (y := if enable_sound (clear_buffer w) then sound_update x else x).
  assert (Hy : long_average_curve y = a /\ fast_average_curve y = b /\
               data_buffer y = deque.clear (data_buffer w)).
  { unfold y. destruct (enable_sound (clear_buffer w)).
    - destruct (sound_update_outcome x) as (_ & H1 & H2 & H3 & _).
      rewrite H1, H2, H3. repeat split.
    - repeat split. }
  destruct Hy as (H1 & H2 & H3).
  unfold get_buffer, get_latest.
  cbn [store_curve data_buffer latest_curve long_average_curve
       fast_average_curve].
  rewrite H1, H2, H3, Haa, Hbb.
  split; [|split; reflexivity].
  exists c. split; [exact Hc|]. split; [|reflexivity].
  unfold deque.append, deque.clear. cbn [deque.items deque.maxlen].
  rewrite Hm. reflexivity.
Qed.

Lemma clear_buffer_then_line_witness :
  List.length first_line = CURVE_SAMPLE_SIZE /\
  filter_ok CURVE_SAMPLE_SIZE (long_average_curve world_init) /\
  filter_ok CURVE_SAMPLE_SIZE (fast_average_curve world_init) /\
  buffer_ok (data_buffer world_init) /\
  average (long_average_curve
             (read_line 0 (inr first_line) (clear_buffer world_init)))
  = first_line.
Proof.
  assert (Hok : forall s f, filter_ok CURVE_SAMPLE_SIZE
                              (AdaptiveMovingAverage_init 25 s f))
    by (intros; split; reflexivity).
  assert (Hb : buffer_ok (data_buffer world_init))
    by (split; [reflexivity|apply Nat.le_0_l]).
  split; [reflexivity|]. split; [apply Hok|]. split; [apply Hok|].
  split; [exact Hb|].
  destruct (clear_buffer_then_line 0 first_line world_init eq_refl
              (Hok _ _) (Hok _ _) Hb) as (_ & _ & _ & H & _).
  exact H.
Defined.

(** X29. With sound updates disabled a valid line updates the filters and
    stores its curve, and touches neither the features, nor the oscillator,
    nor the output. *)
Theorem read_line_sound_disabled (now : Q) (values : list Q) (w : world) :
  List.length values = CURVE_SAMPLE_SIZE ->
  enable_sound w = false ->
  filter_ok CURVE_SAMPLE_SIZE (long_average_curve w) ->
  filter_ok CURVE_SAMPLE_SIZE (fast_average_curve w) ->
  let w' := read_line now (inr values) w in
  current_features w' = current_features w /\
  audio w' = audio w /\
  stdout w' = stdout w /\
  long_average_curve w' = fst (update (long_average_curve w) values) /\
  fast_average_curve w' = fst (update (fast_average_curve w) values) /\
  exists c, curve_values c = values /\ latest_curve w' = Some c /\
            data_buffer w' = deque.append (data_buffer w) c.
Proof.
  intros Hv Hen Hl Hf.
  destruct (read_line_valid now values w Hv Hl Hf)
    as (a & b & c & _ & _ & Ha & Hb & Hc & Hw).
  cbv zeta. rewrite Hw, Hen, Ha, Hb.
  repeat (split; [reflexivity|]).
  exists c. split; [exact Hc|]. split; reflexivity.
Qed.

Lemma read_line_sound_disabled_witness :
  List.length first_line = CURVE_SAMPLE_SIZE /\
  enable_sound quiet_world = false /\
  filter_ok CURVE_SAMPLE_SIZE (long_average_curve quiet_world) /\
  filter_ok CURVE_SAMPLE_SIZE (fast_average_curve quiet_world) /\
  current_features (read_line 0 (inr first_line) quiet_world)
  = example_features /\
  stdout (read_line 0 (inr first_line) quiet_world) = [].
Proof.
  split; [reflexivity|]. split; [reflexivity|].
  split; [split; reflexivity|]. split; [split; reflexivity|].
  destruct (read_line_sound_disabled 0 first_line quiet_world
              eq_refl eq_refl (conj eq_refl eq_refl) (conj eq_refl eq_refl))
    as (H1 & _ & H3 & _).
  split; [exact H1|exact H3].
Defined.

End LoopStore.
